(** * RenderOnCanvas: the four revisions of the component and the bootstrap

    A shallow embedding of [src/RenderOnCanvas/RenderOnCanvas.tsx], of the
    three other revisions of the same component, and of [src/main.tsx].
    Browser and framework calls act on an explicit [World]; every call is
    also appended to a log, so that the order of the calls can be stated. *)

From Stdlib Require Import ZArith NArith List String Ascii DecimalString.
From stdpp Require Import base option list gmap.
Import ListNotations.

Local Open Scope N_scope.

(** ** JavaScript strings

    A JavaScript string is a sequence of UTF-16 code units. *)

Definition jsstring : Type := list N.

(** An ASCII literal of the source, as code units. *)
Definition js (s : string) : jsstring :=
  map N_of_ascii (list_ascii_of_string s).

(** The double-quote character (U+0022) of a template literal. *)
Definition dquote : jsstring := [34].

(** A template hole between two double quotes. *)
Definition quoted (s : jsstring) : jsstring := dquote ++ s ++ dquote.

(** [Array.prototype.join] on an array of strings. *)
Fixpoint join (sep : jsstring) (parts : list jsstring) : jsstring :=
  match parts with
  | [] => []
  | [p] => p
  | p :: rest => p ++ sep ++ join sep rest
  end.

(** ** Values supplied by the platform

    [number] is the JavaScript Number type, [ToString] the conversion a
    template literal applies to it, [lit] a numeric literal of the source and
    [strict_equal] the operator [===] on numbers. [VNode] is Preact's virtual
    node; equality on it is object identity, which is what the hook runtime
    compares. [render] is [preact-render-to-string]. [Rest] is the object of
    the remaining props ([...props]). *)

Class Platform : Type := {
  number : Type;
  ToString : number -> jsstring;
  lit : Z -> number;
  strict_equal : number -> number -> bool;
  VNode : Type;
  VNode_eq_dec :: EqDecision VNode;
  render : VNode -> jsstring;
  Rest : Type;
}.

(** ** Base64

    The browser's [btoa] and the [js-base64] package are not part of the
    repository. The two encoders are modelled from what the specification
    and the comments of the source say of them (Base64, and Unicode safety
    for [js-base64] only), filled in from their published behaviour. *)

Definition base64_alphabet : jsstring :=
  js "ABCDEFGHIJKLMNOPQRSTUVWXYZabcdefghijklmnopqrstuvwxyz0123456789+/".

Definition b64 (i : N) : N := nth (N.to_nat i) base64_alphabet 0.

Definition pad : N := 61.

(** Base64 of a sequence of bytes (RFC 4648, with padding). *)
Fixpoint base64_of_bytes (l : list N) : jsstring :=
  match l with
  | [] => []
  | [a] =>
      [b64 (N.shiftr a 2); b64 (N.shiftl (N.land a 3) 4); pad; pad]
  | [a; b] =>
      [b64 (N.shiftr a 2);
       b64 (N.lor (N.shiftl (N.land a 3) 4) (N.shiftr b 4));
       b64 (N.shiftl (N.land b 15) 2); pad]
  | a :: b :: c :: rest =>
      [b64 (N.shiftr a 2);
       b64 (N.lor (N.shiftl (N.land a 3) 4) (N.shiftr b 4));
       b64 (N.lor (N.shiftl (N.land b 15) 2) (N.shiftr c 6));
       b64 (N.land c 63)] ++ base64_of_bytes rest
  end.

Inductive Error : Type :=
| InvalidCharacterError
| ImportError (message : jsstring).

Inductive Result (A : Type) : Type :=
| Ok (a : A)
| Throw (e : Error).
Arguments Ok {A} a.
Arguments Throw {A} e.

(** A string whose code units all fit one byte (a "binary string"). *)
Definition latin1 (s : jsstring) : bool := forallb (fun c => c <=? 255) s.

(** Modelled from the spec: the browser's [btoa], which is no code of the
    repository. [btoa(s)] throws [InvalidCharacterError] when [s] has a code
    unit above U+00FF, and otherwise encodes the code units as bytes. *)
Definition btoa (s : jsstring) : Result jsstring :=
  if latin1 s then Ok (base64_of_bytes s) else Throw InvalidCharacterError.

Definition is_high_surrogate (c : N) : bool := (55296 <=? c) && (c <=? 56319).
Definition is_low_surrogate (c : N) : bool := (56320 <=? c) && (c <=? 57343).

(** UTF-8 of one code unit outside a surrogate pair ([cb_utob] of
    [js-base64] on a match of length one). *)
Definition utob1 (c : N) : list N :=
  if c <? 128 then [c]
  else if c <? 2048 then
    [N.lor 192 (N.shiftr c 6); N.lor 128 (N.land c 63)]
  else
    [N.lor 224 (N.land (N.shiftr c 12) 15);
     N.lor 128 (N.land (N.shiftr c 6) 63);
     N.lor 128 (N.land c 63)].

(** UTF-8 of a surrogate pair. *)
Definition utob2 (hi lo : N) : list N :=
  let cp := 65536 + (hi - 55296) * 1024 + (lo - 56320) in
  [N.lor 240 (N.land (N.shiftr cp 18) 7);
   N.lor 128 (N.land (N.shiftr cp 12) 63);
   N.lor 128 (N.land (N.shiftr cp 6) 63);
   N.lor 128 (N.land cp 63)].

(** [utob] of [js-base64]: the string as a binary string of UTF-8 bytes. *)
Fixpoint utob (s : jsstring) : list N :=
  match s with
  | [] => []
  | c :: rest =>
      match rest with
      | d :: rest' =>
          if is_high_surrogate c && is_low_surrogate d
          then utob2 c d ++ utob rest'
          else utob1 c ++ utob rest
      | [] => utob1 c
      end
  end.

(** Modelled from the spec: [Base64.encode] of the [js-base64] package,
    which is no code of the repository. [Base64.encode(s)] is the Base64 of
    the UTF-8 bytes of [s]; it has no failing case. *)
Definition Base64_encode (s : jsstring) : Result jsstring :=
  Ok (base64_of_bytes (utob s)).

(** ** The browser

    The state the component acts on: the canvas element behind [canvasRef],
    the [Image] objects it has created, the store of object URLs, and the log
    of the calls made so far (oldest first). *)

Section Browser.
Context `{P : Platform}.

(** [CanvasRenderingContext2D]: the one 2D context of the component's
    canvas; [getContext('2d')] returns it or [null]. *)
Inductive Context2D : Type := context2d.

(** A string usable as [image.src]: an object URL, which is opaque, or a
    string the code has built itself. *)
Inductive url : Type :=
| ObjectURL (id : nat)
| DataURL (s : jsstring).

(** The function values the revisions create, each with the variables it
    captures: [image.onload] and the cleanup function the effect returns. *)
Inductive Closure : Type :=
| Rev1_onload (context : option Context2D) (image : nat) (imageSrc : url)
| Rev1_cleanup (context : option Context2D) (imageSrc : url)
| Rev2_onload (context : option Context2D) (width height : number)
    (image : nat) (imageSrc : url)
| Rev2_cleanup (context : option Context2D) (width height : number)
    (imageSrc : url)
| Rev3_onload (context : option Context2D) (width height : number)
    (image : nat)
| Rev3_cleanup (context : option Context2D) (width height : number)
| Rev4_onload (context : option Context2D) (width height : number)
    (image : nat)
| Rev4_cleanup (context : option Context2D) (width height : number).

Record Image : Type := {
  src : option url;
  onload : option Closure;
  onerror : option Closure;
}.

Record Blob : Type := {
  blob_content : jsstring;
  blob_type : jsstring;
}.

(** What has been painted on the canvas bitmap since it was last reset. *)
Inductive Paint : Type :=
| Cleared (x y w h : number)
| Filled (style : jsstring) (x y w h : number)
| Drawn (image : nat) (dx dy : number).

Record Canvas : Type := {
  width_attr : option number;
  height_attr : option number;
  other_attrs : option Rest;
  fillStyle : jsstring;
  bitmap : list Paint;
}.

Inductive Call : Type :=
| call_render (children : VNode)
| call_new_Image (image : nat)
| call_new_Blob (content type : jsstring)
| call_createObjectURL (u : url)
| call_revokeObjectURL (u : url)
| call_Base64_encode (s : jsstring)
| call_btoa (s : jsstring)
| call_getContext
| call_set_onload (image : nat)
| call_set_src (image : nat) (u : url)
| call_clearRect (x y w h : number)
| call_set_fillStyle (color : jsstring)
| call_fillRect (x y w h : number)
| call_drawImage (image : nat) (dx dy : number).

Record World : Type := {
  canvasRef : option Canvas;
  has_context2d : bool;
  images : list Image;
  object_urls : gmap nat Blob;
  next_object_url : nat;
  calls : list Call;
}.

(** Code that runs against the browser and may throw. The state reached
    before a throw is kept. *)
Definition M (A : Type) : Type := World -> Result A * World.

Definition ret {A} (a : A) : M A := fun w => (Ok a, w).

Definition throw {A} (e : Error) : M A := fun w => (Throw e, w).

Definition bind {A B} (m : M A) (k : A -> M B) : M B :=
  fun w =>
    match m w with
    | (Ok a, w') => k a w'
    | (Throw e, w') => (Throw e, w')
    end.

Definition log (c : Call) : M unit :=
  fun w =>
    (Ok tt, {| canvasRef := canvasRef w; has_context2d := has_context2d w;
               images := images w; object_urls := object_urls w;
               next_object_url := next_object_url w;
               calls := calls w ++ [c] |}).

Definition set_images (f : list Image -> list Image) : M unit :=
  fun w =>
    (Ok tt, {| canvasRef := canvasRef w; has_context2d := has_context2d w;
               images := f (images w); object_urls := object_urls w;
               next_object_url := next_object_url w;
               calls := calls w |}).

Definition set_canvas (f : Canvas -> Canvas) : M unit :=
  fun w =>
    (Ok tt, {| canvasRef := f <$> canvasRef w;
               has_context2d := has_context2d w;
               images := images w; object_urls := object_urls w;
               next_object_url := next_object_url w;
               calls := calls w |}).

End Browser.

Declare Scope js_scope.
Delimit Scope js_scope with js.
Notation "'let*' x ':=' m 'in' k" := (bind m (fun x => k))
  (at level 10, x name, m at level 100, k at level 200) : js_scope.
Notation "m >> k" := (bind m (fun _ => k))
  (at level 98, right associativity) : js_scope.
Local Open Scope js_scope.

Section BrowserCalls.
Context `{P : Platform}.

(** [render(children)] of [preact-render-to-string]. *)
Definition render_to_string (children : VNode) : M jsstring :=
  log (call_render children) >> ret (render children).

(** [new Image()]: a fresh image object without source or handlers. *)
Definition new_Image : M nat :=
  fun w =>
    let image := length (images w) in
    (set_images (fun l => l ++ [{| src := None; onload := None;
                                   onerror := None |}])
     >> log (call_new_Image image) >> ret image) w.

(** [new Blob([content], {type})] *)
Definition new_Blob (content type : jsstring) : M Blob :=
  log (call_new_Blob content type)
  >> ret {| blob_content := content; blob_type := type |}.

(** [URL.createObjectURL(blob)]: a URL never handed out before. *)
Definition createObjectURL (blob : Blob) : M url :=
  fun w =>
    let id := next_object_url w in
    (Ok (ObjectURL id),
     {| canvasRef := canvasRef w; has_context2d := has_context2d w;
        images := images w;
        object_urls := <[id := blob]> (object_urls w);
        next_object_url := S id;
        calls := calls w ++ [call_createObjectURL (ObjectURL id)] |}).

(** [URL.revokeObjectURL(u)]: releases [u]; no effect on any other string
    or on a URL already released. *)
Definition revokeObjectURL (u : url) : M unit :=
  fun w =>
    (Ok tt,
     {| canvasRef := canvasRef w; has_context2d := has_context2d w;
        images := images w;
        object_urls :=
          match u with
          | ObjectURL id => delete id (object_urls w)
          | DataURL _ => object_urls w
          end;
        next_object_url := next_object_url w;
        calls := calls w ++ [call_revokeObjectURL u] |}).

(** [canvas.getContext('2d')] *)
Definition getContext : M (option Context2D) :=
  fun w =>
    (log call_getContext
     >> ret (if has_context2d w then Some context2d else None)) w.

(** [image.onload = f] *)
Definition set_onload (image : nat) (f : Closure) : M unit :=
  set_images (alter (fun i => {| src := src i; onload := Some f;
                                 onerror := onerror i |}) image)
  >> log (call_set_onload image).

(** [image.src = u] *)
Definition set_src (image : nat) (u : url) : M unit :=
  set_images (alter (fun i => {| src := Some u; onload := onload i;
                                 onerror := onerror i |}) image)
  >> log (call_set_src image u).

Definition paint (p : Paint) (c : Canvas) : Canvas :=
  {| width_attr := width_attr c; height_attr := height_attr c;
     other_attrs := other_attrs c; fillStyle := fillStyle c;
     bitmap := bitmap c ++ [p] |}.

(** [context.clearRect(x, y, w, h)] *)
Definition clearRect (x y w h : number) : M unit :=
  set_canvas (paint (Cleared x y w h)) >> log (call_clearRect x y w h).

(** [context.fillStyle = color] *)
Definition set_fillStyle (color : jsstring) : M unit :=
  set_canvas (fun c =>
    {| width_attr := width_attr c; height_attr := height_attr c;
       other_attrs := other_attrs c; fillStyle := color;
       bitmap := bitmap c |})
  >> log (call_set_fillStyle color).

(** [context.fillRect(x, y, w, h)]: paints with the current fill style. *)
Definition fillRect (x y w h : number) : M unit :=
  set_canvas (fun c => paint (Filled (fillStyle c) x y w h) c)
  >> log (call_fillRect x y w h).

(** [context.drawImage(image, dx, dy)] *)
Definition drawImage (image : nat) (dx dy : number) : M unit :=
  set_canvas (paint (Drawn image dx dy)) >> log (call_drawImage image dx dy).

(** A library call that may throw, with its argument logged. *)
Definition encode_with (c : jsstring -> Call)
    (f : jsstring -> Result jsstring) (s : jsstring) : M jsstring :=
  log (c s) >>
  match f s with
  | Ok r => ret r
  | Throw e => throw e
  end.

(** Truthiness of a value that is an object or [null]. *)
Definition truthy {A} (o : option A) : bool :=
  match o with Some _ => true | None => false end.

(** [canvasRef.current] *)
Definition get_canvasRef : M (option Canvas) :=
  fun w => (Ok (canvasRef w), w).

(** The props of the component; an omitted prop is [None]. *)
Record Props : Type := mkProps {
  children : VNode;
  width : option number;
  height : option number;
  rest : Rest;
}.

(** The props of the canvas element the component returns. *)
Record CanvasElement : Type := {
  el_width : option number;
  el_height : option number;
  el_rest : option Rest;
}.

(** A value in the dependency list of [useEffect]. *)
Inductive Dep : Type :=
| dep_vnode (v : VNode)
| dep_number (n : number).

(** One call of the function component: the effect passed to [useEffect]
    with its dependency list, and the element returned. *)
Record Rendered : Type := {
  use_effect : M (option Closure);
  use_effect_deps : list Dep;
  returned : CanvasElement;
}.

End BrowserCalls.

(** ** Revision 1: object URL, fixed size 500 *)

Module Rev1.
Section Rev1.
Context `{P : Platform}.

Definition namespaces : list jsstring :=
  [js "xmlns=" ++ quoted (js "http://www.w3.org/1999/xhtml");
   js "xmlns:svg=" ++ quoted (js "http://www.w3.org/2000/svg")].

Definition svgMarkup (htmlMarkup : jsstring) : jsstring :=
  join (js "")
    [js "<svg:svg " ++ join (js " ") namespaces
       ++ js " height=" ++ quoted (js "500")
       ++ js " width=" ++ quoted (js "500") ++ js ">";
     js "<svg:foreignObject height=" ++ quoted (js "500")
       ++ js " width=" ++ quoted (js "500") ++ js ">";
     htmlMarkup;
     js "</svg:foreignObject>";
     js "</svg:svg>"].

Definition setCanvasBgColor (context : option Context2D) (color : jsstring)
  : M unit :=
  if truthy context then
    set_fillStyle color >>
    fillRect (lit 0) (lit 0) (lit 500) (lit 500)
  else ret tt.

Definition clearCanvas (context : option Context2D) : M unit :=
  if truthy context then
    clearRect (lit 0) (lit 0) (lit 500) (lit 500) >>
    setCanvasBgColor context (js "white")
  else ret tt.

Definition onload (context : option Context2D) (image : nat)
    (imageSrc : url) : M unit :=
  if truthy context then
    clearCanvas context >>
    drawImage image (lit 0) (lit 0) >>
    revokeObjectURL imageSrc
  else ret tt.

Definition cleanup (context : option Context2D) (imageSrc : url) : M unit :=
  clearCanvas context >>
  revokeObjectURL imageSrc.

Definition effect (children : VNode) : M (option Closure) :=
  let* canvas := get_canvasRef in
  if truthy canvas then
    let* htmlMarkup := render_to_string children in
    let svgMarkup := svgMarkup htmlMarkup in
    let* image := new_Image in
    let* imageBlob := new_Blob svgMarkup (js "image/svg+xml;charset=utf-8") in
    let* imageSrc := createObjectURL imageBlob in
    let* context := getContext in
    set_onload image (Rev1_onload context image imageSrc) >>
    set_src image imageSrc >>
    ret (Some (Rev1_cleanup context imageSrc))
  else ret None.

Definition RenderOnCanvas (props : Props) : Rendered :=
  let 'mkProps children _ _ _ := props in
  {| use_effect := effect children;
     use_effect_deps := [dep_vnode children];
     returned := {| el_width := None; el_height := None; el_rest := None |} |}.

End Rev1.
End Rev1.

(** ** Revision 2: object URL, width and height props *)

Module Rev2.
Section Rev2.
Context `{P : Platform}.

Definition namespaces : list jsstring :=
  [js "xmlns=" ++ quoted (js "http://www.w3.org/1999/xhtml");
   js "xmlns:svg=" ++ quoted (js "http://www.w3.org/2000/svg")].

Definition svgMarkup (htmlMarkup : jsstring) (width height : number)
  : jsstring :=
  join (js "")
    [js "<svg:svg " ++ join (js " ") namespaces
       ++ js " height=" ++ quoted (ToString height)
       ++ js " width=" ++ quoted (ToString width) ++ js ">";
     js "<svg:foreignObject height=" ++ quoted (ToString height)
       ++ js " width=" ++ quoted (ToString width) ++ js ">";
     htmlMarkup;
     js "</svg:foreignObject>";
     js "</svg:svg>"].

Definition setCanvasBgColor (context : option Context2D)
    (width height : number) (color : jsstring) : M unit :=
  if truthy context then
    set_fillStyle color >>
    fillRect (lit 0) (lit 0) width height
  else ret tt.

Definition clearCanvas (context : option Context2D) (width height : number)
  : M unit :=
  if truthy context then
    clearRect (lit 0) (lit 0) width height >>
    setCanvasBgColor context width height (js "white")
  else ret tt.

Definition onload (context : option Context2D) (width height : number)
    (image : nat) (imageSrc : url) : M unit :=
  if truthy context then
    clearCanvas context width height >>
    drawImage image (lit 0) (lit 0) >>
    revokeObjectURL imageSrc
  else ret tt.

Definition cleanup (context : option Context2D) (width height : number)
    (imageSrc : url) : M unit :=
  clearCanvas context width height >>
  revokeObjectURL imageSrc.

Definition effect (children : VNode) (width height : number)
  : M (option Closure) :=
  let* canvas := get_canvasRef in
  if truthy canvas then
    let* htmlMarkup := render_to_string children in
    let svgMarkup := svgMarkup htmlMarkup width height in
    let* image := new_Image in
    let* imageBlob := new_Blob svgMarkup (js "image/svg+xml;charset=utf-8") in
    let* imageSrc := createObjectURL imageBlob in
    let* context := getContext in
    set_onload image (Rev2_onload context width height image imageSrc) >>
    set_src image imageSrc >>
    ret (Some (Rev2_cleanup context width height imageSrc))
  else ret None.

Definition RenderOnCanvas (props : Props) : Rendered :=
  let 'mkProps children width height props := props in
  let width := default (lit 150) width in
  let height := default (lit 150) height in
  {| use_effect := effect children width height;
     use_effect_deps := [dep_vnode children];
     returned := {| el_width := None; el_height := None;
                    el_rest := Some props |} |}.

End Rev2.
End Rev2.

(** ** Revision 3: data URL through [btoa] *)

Module Rev3.
Section Rev3.
Context `{P : Platform}.

Definition namespaces : list jsstring :=
  [js "xmlns=" ++ quoted (js "http://www.w3.org/1999/xhtml");
   js "xmlns:svg=" ++ quoted (js "http://www.w3.org/2000/svg")].

Definition useSVGForeignObject (htmlMarkup : jsstring)
    (dimensions : option (number * number)) : jsstring :=
  let '(width, height) := default (lit 150, lit 150) dimensions in
  let svgMarkup :=
    join (js "")
      [js "<svg:svg " ++ join (js " ") namespaces
         ++ js " height=" ++ quoted (ToString height)
         ++ js " width=" ++ quoted (ToString width) ++ js ">";
       js "<svg:foreignObject height=" ++ quoted (ToString height)
         ++ js " width=" ++ quoted (ToString width) ++ js ">";
       htmlMarkup;
       js "</svg:foreignObject>";
       js "</svg:svg>"] in
  svgMarkup.

Definition setCanvasBgColor (context : option Context2D)
    (width height : number) (color : jsstring) : M unit :=
  if truthy context then
    set_fillStyle color >>
    fillRect (lit 0) (lit 0) width height
  else ret tt.

Definition clearCanvas (context : option Context2D) (width height : number)
  : M unit :=
  if truthy context then
    clearRect (lit 0) (lit 0) width height >>
    setCanvasBgColor context width height (js "white")
  else ret tt.

Definition onload (context : option Context2D) (width height : number)
    (image : nat) : M unit :=
  if truthy context then
    clearCanvas context width height >>
    drawImage image (lit 0) (lit 0)
  else ret tt.

Definition cleanup (context : option Context2D) (width height : number)
  : M unit :=
  clearCanvas context width height.

Definition effect (children : VNode) (width height : number)
  : M (option Closure) :=
  let* canvas := get_canvasRef in
  if truthy canvas then
    let* htmlMarkup := render_to_string children in
    let svgMarkup := useSVGForeignObject htmlMarkup (Some (width, height)) in
    let* image := new_Image in
    let* base64SvgMarkup := encode_with call_btoa btoa svgMarkup in
    let imageSrc :=
      DataURL (js "data:image/svg+xml;base64," ++ base64SvgMarkup) in
    let* context := getContext in
    set_onload image (Rev3_onload context width height image) >>
    set_src image imageSrc >>
    ret (Some (Rev3_cleanup context width height))
  else ret None.

Definition RenderOnCanvas (props : Props) : Rendered :=
  let 'mkProps children width height props := props in
  let width := default (lit 150) width in
  let height := default (lit 150) height in
  {| use_effect := effect children width height;
     use_effect_deps := [dep_vnode children];
     returned := {| el_width := None; el_height := None;
                    el_rest := Some props |} |}.

End Rev3.
End Rev3.

(** ** Revision 4: data URL through [js-base64], hooks split out *)

Module Rev4.
Section Rev4.
Context `{P : Platform}.

Definition defaultHeight : number := lit 150.
Definition defaultWidth : number := lit 150.

Definition namespaces : list jsstring :=
  [js "xmlns=" ++ quoted (js "http://www.w3.org/1999/xhtml");
   js "xmlns:svg=" ++ quoted (js "http://www.w3.org/2000/svg")].

Definition useSvgForeignObject (htmlMarkup : jsstring)
    (dimensions : option (number * number)) : jsstring :=
  let '(width, height) := default (defaultWidth, defaultHeight) dimensions in
  let svgMarkup :=
    join (js "")
      [js "<svg:svg " ++ join (js " ") namespaces
         ++ js " height=" ++ quoted (ToString height)
         ++ js " width=" ++ quoted (ToString width) ++ js ">";
       js "<svg:foreignObject height=" ++ quoted (ToString height)
         ++ js " width=" ++ quoted (ToString width) ++ js ">";
       htmlMarkup;
       js "</svg:foreignObject>";
       js "</svg:svg>"] in
  svgMarkup.

Definition useSvgAsImageSrc (svgMarkup : jsstring) : M nat :=
  let* image := new_Image in
  let* base64SvgMarkup :=
    encode_with call_Base64_encode Base64_encode svgMarkup in
  let imageSrc :=
    DataURL (js "data:image/svg+xml;base64," ++ base64SvgMarkup) in
  set_src image imageSrc >>
  ret image.

Record CanvasOptions : Type := {
  context : option Context2D;
  height : number;
  width : number;
}.

Definition setCanvasBgColor (options : CanvasOptions) (color : jsstring)
  : M unit :=
  if truthy (context options) then
    set_fillStyle color >>
    fillRect (lit 0) (lit 0) (width options) (height options)
  else ret tt.

Definition clearCanvas (options : CanvasOptions) : M unit :=
  if truthy (context options) then
    clearRect (lit 0) (lit 0) (width options) (height options) >>
    setCanvasBgColor
      {| context := context options; width := width options;
         height := height options |} (js "white")
  else ret tt.

Definition onload (context : option Context2D) (width height : number)
    (image : nat) : M unit :=
  if truthy context then
    clearCanvas {| context := context; width := width; height := height |} >>
    drawImage image (lit 0) (lit 0)
  else ret tt.

Definition cleanup (context : option Context2D) (width height : number)
  : M unit :=
  if truthy context then
    clearCanvas {| context := context; width := width; height := height |}
  else ret tt.

Definition effect (children : VNode) (width height : number)
  : M (option Closure) :=
  let* canvas := get_canvasRef in
  if truthy canvas then
    let* htmlMarkup := render_to_string children in
    let svgMarkup := useSvgForeignObject htmlMarkup (Some (width, height)) in
    let* image := useSvgAsImageSrc svgMarkup in
    let* context := getContext in
    set_onload image (Rev4_onload context width height image) >>
    ret (Some (Rev4_cleanup context width height))
  else ret None.

Definition RenderOnCanvas (props : Props) : Rendered :=
  let 'mkProps children width height props := props in
  let width := default defaultWidth width in
  let height := default defaultHeight height in
  {| use_effect := effect children width height;
     use_effect_deps := [dep_vnode children];
     returned := {| el_width := Some width; el_height := Some height;
                    el_rest := Some props |} |}.

End Rev4.
End Rev4.

(** ** The framework and the page around the component

    What Preact and the browser do with the component: they call the
    function values it has installed, compare the dependency list of
    [useEffect] between renders, and keep the canvas element in step with the
    element the component returns. None of this is code of the repository;
    it follows the specification where it speaks of it (the effect runs after
    a render, its cleanup on unmount or when children change) and the
    published behaviour of Preact and of the canvas element elsewhere. *)

Section Runtime.
Context `{P : Platform}.

(** Calling a function value runs the body it was created from. *)
Definition call (f : Closure) : M unit :=
  match f with
  | Rev1_onload context image imageSrc => Rev1.onload context image imageSrc
  | Rev1_cleanup context imageSrc => Rev1.cleanup context imageSrc
  | Rev2_onload context width height image imageSrc =>
      Rev2.onload context width height image imageSrc
  | Rev2_cleanup context width height imageSrc =>
      Rev2.cleanup context width height imageSrc
  | Rev3_onload context width height image =>
      Rev3.onload context width height image
  | Rev3_cleanup context width height => Rev3.cleanup context width height
  | Rev4_onload context width height image =>
      Rev4.onload context width height image
  | Rev4_cleanup context width height => Rev4.cleanup context width height
  end.

Definition call_handler (f : option Closure) : M unit :=
  match f with
  | Some f => call f
  | None => ret tt
  end.

(** The [load] event of an image, fired by the browser: its [onload]
    handler, if any, runs. *)
Definition fire_load (image : nat) : M unit :=
  fun w => call_handler (images w !! image ≫= onload) w.

(** The [error] event of an image, fired by the browser: its [onerror]
    handler, if any, runs. *)
Definition fire_error (image : nat) : M unit :=
  fun w => call_handler (images w !! image ≫= onerror) w.

(** A canvas element as the browser creates it. *)
Definition blank_canvas : Canvas :=
  {| width_attr := None; height_attr := None; other_attrs := None;
     fillStyle := js "#000000"; bitmap := [] |}.

(** The browser's canvas element, which is no code of the repository:
    setting or removing its [width] or [height] attribute resets its bitmap
    and its context state (HTML Standard, the canvas element). *)
Definition set_dimensions (width height : option number) (c : Canvas)
  : Canvas :=
  {| width_attr := width; height_attr := height;
     other_attrs := other_attrs c;
     fillStyle := js "#000000"; bitmap := [] |}.

(** Preact compares the old and the new value of a prop with [!==]. *)
Definition same_prop (old new : option number) : bool :=
  match old, new with
  | Some x, Some y => strict_equal x y
  | None, None => true
  | _, _ => false
  end.

(** Preact's update of the canvas element from the returned element, which
    is no code of the repository: the dimension attributes are written only
    when their props have changed. *)
Definition patch_canvas (el : CanvasElement) (c : Canvas) : Canvas :=
  let c :=
    if same_prop (width_attr c) (el_width el)
       && same_prop (height_attr c) (el_height el)
    then c
    else set_dimensions (el_width el) (el_height el) c in
  {| width_attr := width_attr c; height_attr := height_attr c;
     other_attrs := el_rest el;
     fillStyle := fillStyle c; bitmap := bitmap c |}.

Definition set_canvasRef (c : option Canvas) : M unit :=
  fun w =>
    (Ok tt, {| canvasRef := c; has_context2d := has_context2d w;
               images := images w; object_urls := object_urls w;
               next_object_url := next_object_url w;
               calls := calls w |}).

(** The hook state of one mounted component: the dependency list of the
    last effect run and the cleanup function it returned. *)
Record Instance : Type := {
  prev_deps : list Dep;
  pending_cleanup : option Closure;
}.

Definition same_dep (a b : Dep) : bool :=
  match a, b with
  | dep_vnode x, dep_vnode y => bool_decide (x = y)
  | dep_number x, dep_number y => strict_equal x y
  | _, _ => false
  end.

(** [argsChanged] of [preact/hooks]. *)
Fixpoint argsChanged (old new : list Dep) : bool :=
  match old, new with
  | [], [] => false
  | a :: old, b :: new => negb (same_dep a b) || argsChanged old new
  | _, _ => true
  end.

(** Modelled from the spec: the first render by Preact's hook runtime, which
    is no code of the repository. The canvas element is created and stored
    in the ref, then the effect runs. *)
Definition mount (component : Props -> Rendered) (props : Props)
  : M Instance :=
  let r := component props in
  set_canvasRef (Some (patch_canvas (returned r) blank_canvas)) >>
  let* cleanup := use_effect r in
  ret {| prev_deps := use_effect_deps r; pending_cleanup := cleanup |}.

(** Modelled from the spec: a later render by Preact's hook runtime, which
    is no code of the repository. The canvas element is patched; the effect
    runs again, after the pending cleanup, only when the dependency list has
    changed. *)
Definition update (component : Props -> Rendered) (inst : Instance)
    (props : Props) : M Instance :=
  let r := component props in
  set_canvas (patch_canvas (returned r)) >>
  if argsChanged (prev_deps inst) (use_effect_deps r) then
    call_handler (pending_cleanup inst) >>
    let* cleanup := use_effect r in
    ret {| prev_deps := use_effect_deps r; pending_cleanup := cleanup |}
  else ret inst.

(** Modelled from the spec: the unmount by Preact's hook runtime, which is no
    code of the repository. The pending cleanup runs, then the ref is
    emptied. *)
Definition unmount (inst : Instance) : M unit :=
  call_handler (pending_cleanup inst) >>
  set_canvasRef None.

(** The calls a computation adds to the log. *)
Definition new_calls {A} (m : M A) (w : World) : list Call :=
  drop (length (calls w)) (calls (snd (m w))).

End Runtime.

(** ** The bootstrap, [main.tsx] *)

Module Main.

(** The module specifiers of the dynamic imports. *)
Inductive Specifier : Type :=
| react
| app
| index_css
| preact_devtools.

(** What is handed to [render]: [<App />], or the fragment showing
    [error.message]. *)
Inductive Node : Type :=
| App
| ErrorFallback (message : jsstring).

Inductive Call : Type :=
| call_import (s : Specifier)
| call_getElementById (id : jsstring)
| call_render (node : Node) (container : jsstring).

(** [import.meta.env], and for each specifier whether its import rejects
    (with which message). *)
Record Env : Type := {
  DEV : bool;
  PROD : bool;
  rejects : Specifier -> option jsstring;
}.

Definition Boot (A : Type) : Type := list Call -> Result A * list Call.

Definition ret {A} (a : A) : Boot A := fun l => (Ok a, l).

Definition bind {A B} (m : Boot A) (k : A -> Boot B) : Boot B :=
  fun l =>
    match m l with
    | (Ok a, l') => k a l'
    | (Throw e, l') => (Throw e, l')
    end.

(** [try { m } catch (error) { handler }] *)
Definition try_catch {A} (m : Boot A) (handler : Error -> Boot A) : Boot A :=
  fun l =>
    match m l with
    | (Ok a, l') => (Ok a, l')
    | (Throw e, l') => handler e l'
    end.

(** A call of an async function whose promise is dropped: a rejection
    reaches nobody. *)
Definition not_awaited (m : Boot unit) : Boot unit :=
  fun l => (Ok tt, snd (m l)).

(** [await import(s)] *)
Definition import (env : Env) (s : Specifier) : Boot unit :=
  fun l =>
    match rejects env s with
    | None => (Ok tt, l ++ [call_import s])
    | Some message => (Throw (ImportError message), l ++ [call_import s])
    end.

(** [document.getElementById(id)!]; the element is named by its id. *)
Definition getElementById (id : jsstring) : Boot jsstring :=
  fun l => (Ok id, l ++ [call_getElementById id]).

Definition render (node : Node) (container : jsstring) : Boot unit :=
  fun l => (Ok tt, l ++ [call_render node container]).

(** [error.message] *)
Definition message (error : Error) : jsstring :=
  match error with
  | ImportError message => message
  | InvalidCharacterError => js "InvalidCharacterError"
  end.

Definition callPreact (env : Env) : Boot unit :=
  bind (import env react) (fun _ =>
  bind (import env app) (fun _ =>
  bind (import env index_css) (fun _ =>
  bind (getElementById (js "app")) (fun container =>
  render App container)))).

Definition main (env : Env) : Boot unit :=
  if DEV env then
    not_awaited
      (try_catch
         (bind (import env preact_devtools) (fun _ =>
          not_awaited (callPreact env)))
         (fun error =>
          bind (import env react) (fun _ =>
          bind (getElementById (js "app")) (fun container =>
          render (ErrorFallback (message error)) container))))
  else if PROD env then
    not_awaited (callPreact env)
  else ret tt.

(** The calls made by the bootstrap, in order. *)
Definition trace (env : Env) : list Call := snd (main env []).

End Main.

(** ** A concrete platform

    Integer-valued numbers printed in decimal, virtual nodes that are a text
    with an identity, rendered as that text. *)

Definition decimal (z : Z) : jsstring :=
  js (DecimalString.NilEmpty.string_of_int (Z.to_int z)).

#[local] Instance integer_platform : Platform := {|
  number := Z;
  ToString := decimal;
  lit := fun z => z;
  strict_equal := Z.eqb;
  VNode := nat * jsstring;
  render := snd;
  Rest := list (jsstring * jsstring);
|}.

Definition empty_world `{P : Platform} (context2d_supported : bool) : World :=
  {| canvasRef := None; has_context2d := context2d_supported;
     images := []; object_urls := ∅; next_object_url := 0;
     calls := [] |}.

(** ** Observations used to state the properties *)

Section Observations.
Context `{P : Platform}.

(** The 2D context [getContext] returns in a world. *)
Definition context_of (w : World) : option Context2D :=
  if has_context2d w then Some context2d else None.

(** The calls of [clearCanvas] on a context that is not [null]. *)
Definition clear_calls (width height : number) : list Call :=
  [call_clearRect (lit 0) (lit 0) width height;
   call_set_fillStyle (js "white");
   call_fillRect (lit 0) (lit 0) width height].

(** What [clearCanvas] paints. *)
Definition clear_paint (width height : number) : list Paint :=
  [Cleared (lit 0) (lit 0) width height;
   Filled (js "white") (lit 0) (lit 0) width height].

(** The canvas after [clearCanvas] and then some more painting. *)
Definition cleared (width height : number) (more : list Paint) (c : Canvas)
  : Canvas :=
  {| width_attr := width_attr c; height_attr := height_attr c;
     other_attrs := other_attrs c;
     fillStyle := js "white";
     bitmap := bitmap c ++ clear_paint width height ++ more |}.

(** The store of object URLs after [URL.revokeObjectURL(u)]. *)
Definition revoked (u : url) (urls : gmap nat Blob) : gmap nat Blob :=
  match u with
  | ObjectURL id => delete id urls
  | DataURL _ => urls
  end.

(** A world after painting on the canvas, with a new store of object URLs
    and some more calls logged. *)
Definition drew (f : Canvas -> Canvas) (urls : gmap nat Blob)
    (new : list Call) (w : World) : World :=
  {| canvasRef := f <$> canvasRef w; has_context2d := has_context2d w;
     images := images w; object_urls := urls;
     next_object_url := next_object_url w;
     calls := calls w ++ new |}.

(** A world with one more image, with a new store of object URLs and some
    more calls logged. *)
Definition loading (image : Image) (urls : gmap nat Blob) (next : nat)
    (new : list Call) (w : World) : World :=
  {| canvasRef := canvasRef w; has_context2d := has_context2d w;
     images := images w ++ [image]; object_urls := urls;
     next_object_url := next;
     calls := calls w ++ new |}.

(** A world whose ref holds the given canvas element. *)
Definition with_canvas (c : option Canvas) (w : World) : World :=
  {| canvasRef := c; has_context2d := has_context2d w;
     images := images w; object_urls := object_urls w;
     next_object_url := next_object_url w;
     calls := calls w |}.

(** The canvas element the browser has just created, with the remaining
    props on it. *)
Definition fresh_canvas (width height : option number)
    (others : option Rest) : Canvas :=
  {| width_attr := width; height_attr := height; other_attrs := others;
     fillStyle := js "#000000"; bitmap := [] |}.

(** The SVG document of the specification: the HTML inside a
    [foreignObject], the default namespace XHTML, the prefix [svg:] bound to
    the SVG namespace. *)
Definition svg_document (h : jsstring) (w ht : number) : jsstring :=
  js "<svg:svg xmlns=" ++ dquote ++ js "http://www.w3.org/1999/xhtml"
  ++ dquote ++ js " xmlns:svg=" ++ dquote ++ js "http://www.w3.org/2000/svg"
  ++ dquote ++ js " height=" ++ dquote ++ ToString ht ++ dquote
  ++ js " width=" ++ dquote ++ ToString w ++ dquote ++ js ">"
  ++ js "<svg:foreignObject height=" ++ dquote ++ ToString ht ++ dquote
  ++ js " width=" ++ dquote ++ ToString w ++ dquote ++ js ">"
  ++ h
  ++ js "</svg:foreignObject>"
  ++ js "</svg:svg>".

(** The world after the first render of a component. *)
Definition mounted (component : Props -> Rendered) (props : Props)
    (w : World) : World :=
  snd (mount component props w).

(** What a component keeps between renders after an effect run for
    [children] that returned [cleanup]. *)
Definition instance_for (children : VNode) (cleanup : Closure) : Instance :=
  {| prev_deps := [dep_vnode children]; pending_cleanup := Some cleanup |}.

(** The source of an image of the world, once assigned. *)
Definition src_of (w : World) (image : nat) : option url :=
  images w !! image ≫= src.


(** Whether a call paints on the canvas or changes its fill style. *)
Definition is_canvas_call (c : Call) : bool :=
  match c with
  | call_clearRect _ _ _ _ | call_set_fillStyle _
  | call_fillRect _ _ _ _ | call_drawImage _ _ _ => true
  | _ => false
  end.

(** The pixels of the canvas: what has been painted since the last reset. *)
Definition pixels (w : World) : option (list Paint) :=
  bitmap <$> canvasRef w.

End Observations.

(** ** Concrete inputs *)

(** The text [hi], no dimension given. *)
Definition hi_props : @Props integer_platform :=
  mkProps ((0%nat, js "hi") : @VNode integer_platform) None None [].

(** The euro sign U+20AC, no dimension given. *)
Definition euro_props : @Props integer_platform :=
  mkProps ((1%nat, [8364]) : @VNode integer_platform) None None [].

(** The text [hi] again, the same object, now with a width of 200. *)
Definition hi_props_wider : @Props integer_platform :=
  mkProps ((0%nat, js "hi") : @VNode integer_platform) (Some 200%Z) None [].

(** ** Sequences of events

    A page holding at most one instance of the component, driven by renders,
    image events and the unmount, in any order. *)

Section Events.
Context `{P : Platform}.

Inductive Event : Type :=
| ev_render (props : Props)
| ev_load (image : nat)
| ev_error (image : nat)
| ev_unmount.

(** Modelled from the spec: one event of the page, which is no code of the
    repository. A render mounts the component when there is no instance and
    updates the instance otherwise; an effect that throws leaves an instance
    with the new dependency list and no cleanup function. *)
Definition step (component : Props -> Rendered) (e : Event)
    (s : option Instance * World) : option Instance * World :=
  let '(inst, w) := s in
  match e with
  | ev_render props =>
      match inst with
      | None =>
          match mount component props w with
          | (Ok i, w') => (Some i, w')
          | (Throw _, w') =>
              (Some {| prev_deps := use_effect_deps (component props);
                       pending_cleanup := None |}, w')
          end
      | Some i =>
          match update component i props w with
          | (Ok i', w') => (Some i', w')
          | (Throw _, w') =>
              (Some {| prev_deps := use_effect_deps (component props);
                       pending_cleanup := None |}, w')
          end
      end
  | ev_load image => (inst, snd (fire_load image w))
  | ev_error image => (inst, snd (fire_error image w))
  | ev_unmount =>
      match inst with
      | Some i => (None, snd (unmount i w))
      | None => (None, w)
      end
  end.

Definition run_events (component : Props -> Rendered) (events : list Event)
    (s : option Instance * World) : option Instance * World :=
  fold_left (fun s e => step component e s) events s.




(** The object URL a function value passes to [URL.revokeObjectURL], if it
    holds one. *)
Definition revokes (f : Closure) : option nat :=
  match f with
  | Rev1_onload _ _ (ObjectURL id) => Some id
  | Rev1_cleanup _ (ObjectURL id) => Some id
  | Rev2_onload _ _ _ _ (ObjectURL id) => Some id
  | Rev2_cleanup _ _ _ (ObjectURL id) => Some id
  | _ => None
  end.

(** The cleanup functions among the function values. *)
Definition is_cleanup (f : Closure) : bool :=
  match f with
  | Rev1_cleanup _ _ | Rev2_cleanup _ _ _ _ | Rev3_cleanup _ _ _
  | Rev4_cleanup _ _ _ => true
  | _ => false
  end.

(** The object URLs of the store that were handed out from [base] on. *)
Definition live_since (base : nat) (w : World) : list nat :=
  List.filter (fun id : nat => (base <=? id)%nat)
    (map fst (map_to_list (object_urls w))).

(** An effect that either does nothing, or hands out the next object URL
    and returns a cleanup function that holds it. *)
Definition url_effect (effect : M (option Closure)) : Prop :=
  forall w : World,
    effect w = (Ok None, w)
    \/ exists (f : Closure) (blob : Blob) (w' : World),
         effect w = (Ok (Some f), w')
         /\ is_cleanup f = true
         /\ revokes f = Some (next_object_url w)
         /\ object_urls w' = <[next_object_url w := blob]> (object_urls w)
         /\ next_object_url w' = S (next_object_url w).

(** What holds of the page after every event: the counter has not gone
    back, no URL from the counter on is in the store, and a URL handed out
    since [base] that is still in the store is held by the pending cleanup
    function. *)
Definition held (base : nat) (s : option Instance * World) : Prop :=
  (base <= next_object_url (snd s))%nat
  /\ (forall id, (next_object_url (snd s) <= id)%nat ->
        object_urls (snd s) !! id = None)
  /\ (forall id, (base <= id)%nat -> is_Some (object_urls (snd s) !! id) ->
        exists i f, fst s = Some i /\ pending_cleanup i = Some f
                    /\ is_cleanup f = true /\ revokes f = Some id).

End Events.

(** ** Observations on the bootstrap *)

Definition is_render_of_app (c : Main.Call) : bool :=
  match c with
  | Main.call_render Main.App _ => true
  | _ => false
  end.

Definition is_render (c : Main.Call) : bool :=
  match c with
  | Main.call_render _ _ => true
  | _ => false
  end.

Definition resolves (env : Main.Env) (s : Main.Specifier) : bool :=
  match Main.rejects env s with
  | None => true
  | Some _ => false
  end.

(** * Properties *)

Arguments js : simpl never.
Arguments Rev1.svgMarkup : simpl never.
Arguments Rev2.svgMarkup : simpl never.
Arguments Rev3.useSVGForeignObject : simpl never.
Arguments Rev4.useSvgForeignObject : simpl never.
Arguments btoa : simpl never.
Arguments base64_of_bytes : simpl never.
Arguments utob : simpl never.

(** ** The models of Base64 on known vectors *)

Example btoa_Man : btoa (js "Man") = Ok (js "TWFu").
Proof. reflexivity. Qed.

Example btoa_Ma : btoa (js "Ma") = Ok (js "TWE=").
Proof. reflexivity. Qed.

Example btoa_M : btoa (js "M") = Ok (js "TQ==").
Proof. reflexivity. Qed.

(** U+20AC, the euro sign. *)
Example Base64_encode_euro : Base64_encode [8364] = Ok (js "4oKs").
Proof. reflexivity. Qed.

(** U+1F600 as the surrogate pair D83D DE00. *)
Example Base64_encode_pair :
  Base64_encode [55357; 56832] = Ok (js "8J+YgA==").
Proof. reflexivity. Qed.

Example btoa_euro : btoa [8364] = Throw InvalidCharacterError.
Proof. reflexivity. Qed.

(** On ASCII text the two encoders agree. *)
Lemma utob_ascii (s : jsstring) :
  forallb (fun c => c <? 128) s = true -> utob s = s.
Proof.
  induction s as [|c rest IH]; [done|].
  intros H. cbn in H. apply andb_prop in H as [Hc Hrest].
  specialize (IH Hrest).
  assert (Hhi : is_high_surrogate c = false).
  { unfold is_high_surrogate. apply N.ltb_lt in Hc.
    apply andb_false_intro1, N.leb_gt. lia. }
  assert (H1 : utob1 c = [c]) by (unfold utob1; by rewrite Hc).
  destruct rest as [|d rest'].
  - change (utob [c]) with (utob1 c). by rewrite H1.
  - change (utob (c :: d :: rest')) with
      (if is_high_surrogate c && is_low_surrogate d
       then utob2 c d ++ utob rest' else utob1 c ++ utob (d :: rest')).
    rewrite Hhi, H1, IH. done.
Qed.

Lemma ascii_latin1 (s : jsstring) :
  forallb (fun c => c <? 128) s = true -> latin1 s = true.
Proof.
  unfold latin1. rewrite !forallb_forall. intros H c Hc.
  specialize (H c Hc). apply N.ltb_lt in H. apply N.leb_le. lia.
Qed.

Lemma Base64_encode_ascii (s : jsstring) :
  forallb (fun c => c <? 128) s = true -> Base64_encode s = btoa s.
Proof.
  intros H. unfold Base64_encode, btoa.
  by rewrite (ascii_latin1 s H), (utob_ascii s H).
Qed.

(** A code unit above U+00FF makes [btoa] throw. *)
Lemma btoa_throws (s : jsstring) (c : N) :
  In c s -> 255 < c -> btoa s = Throw InvalidCharacterError.
Proof.
  intros Hin Hc. unfold btoa.
  destruct (latin1 s) eqn:E; [|done].
  unfold latin1 in E. rewrite forallb_forall in E.
  specialize (E c Hin). apply N.leb_le in E. lia.
Qed.

(** ** Running the code of the revisions *)

Section Runs.
Context `{P : Platform}.

Lemma alter_new {A} (f : A -> A) (l : list A) (x : A) :
  alter f (length l) (l ++ [x]) = l ++ [f x].
Proof.
  replace (length l) with (length l + 0)%nat by lia.
  by rewrite alter_app_r.
Qed.

Lemma new_calls_app {A} (m : M A) (w : World) (l : list Call) :
  calls (snd (m w)) = calls w ++ l -> new_calls m w = l.
Proof. intros H. unfold new_calls. rewrite H. apply drop_app_length. Qed.

Lemma new_calls_nil {A} (m : M A) (w : World) :
  calls (snd (m w)) = calls w -> new_calls m w = [].
Proof.
  intros H. apply new_calls_app. by rewrite app_nil_r.
Qed.

Create HintDb browser.
#[local] Hint Unfold bind ret throw log set_images set_canvas paint
  render_to_string new_Image new_Blob createObjectURL revokeObjectURL
  getContext set_onload set_src clearRect set_fillStyle fillRect drawImage
  encode_with get_canvasRef truthy context_of : browser.
#[local] Hint Unfold drew loading cleared clear_paint clear_calls
  revoked : browser.

(** Runs the browser calls of the goal and brings the lists to normal
    form. *)
Ltac run :=
  cbn; autounfold with browser; cbn;
  repeat first [ rewrite alter_new | rewrite <- app_assoc ]; cbn.

Ltac same_canvas w :=
  run; destruct (canvasRef w); cbn; rewrite <- ?app_assoc; reflexivity.

(** *** Revision 1 *)

Lemma Rev1_clearCanvas_run (w : World) :
  Rev1.clearCanvas (Some context2d) w
  = (Ok tt, drew (cleared (lit 500) (lit 500) []) (object_urls w)
              (clear_calls (lit 500) (lit 500)) w).
Proof.
  unfold Rev1.clearCanvas, Rev1.setCanvasBgColor. same_canvas w.
Qed.

Lemma Rev1_onload_run (image : nat) (u : url) (w : World) :
  Rev1.onload (Some context2d) image u w
  = (Ok tt,
     drew (cleared (lit 500) (lit 500) [Drawn image (lit 0) (lit 0)])
       (revoked u (object_urls w))
       (clear_calls (lit 500) (lit 500)
        ++ [call_drawImage image (lit 0) (lit 0); call_revokeObjectURL u])
       w).
Proof.
  unfold Rev1.onload, Rev1.clearCanvas, Rev1.setCanvasBgColor.
  same_canvas w.
Qed.

Lemma Rev1_cleanup_run (u : url) (w : World) :
  Rev1.cleanup (Some context2d) u w
  = (Ok tt,
     drew (cleared (lit 500) (lit 500) []) (revoked u (object_urls w))
       (clear_calls (lit 500) (lit 500) ++ [call_revokeObjectURL u]) w).
Proof.
  unfold Rev1.cleanup, Rev1.clearCanvas, Rev1.setCanvasBgColor.
  same_canvas w.
Qed.

Lemma Rev1_cleanup_null (u : url) (w : World) :
  Rev1.cleanup None u w
  = (Ok tt, drew id (revoked u (object_urls w)) [call_revokeObjectURL u] w).
Proof. unfold Rev1.cleanup, Rev1.clearCanvas. same_canvas w. Qed.

Lemma Rev1_effect_run (children : VNode) (w : World) (canvas : Canvas) :
  canvasRef w = Some canvas ->
  let image := length (images w) in
  let u := ObjectURL (next_object_url w) in
  let svg := Rev1.svgMarkup (render children) in
  let type := js "image/svg+xml;charset=utf-8" in
  Rev1.effect children w
  = (Ok (Some (Rev1_cleanup (context_of w) u)),
     loading
       {| src := Some u;
          onload := Some (Rev1_onload (context_of w) image u);
          onerror := None |}
       (<[next_object_url w := {| blob_content := svg; blob_type := type |}]>
          (object_urls w))
       (S (next_object_url w))
       [call_render children; call_new_Image image; call_new_Blob svg type;
        call_createObjectURL u; call_getContext; call_set_onload image;
        call_set_src image u]
       w).
Proof.
  intros H image u svg type.
  unfold Rev1.effect, bind, get_canvasRef. rewrite H. run. reflexivity.
Qed.

(** *** Revision 2 *)

Lemma Rev2_onload_run (width height : number) (image : nat) (u : url)
    (w : World) :
  Rev2.onload (Some context2d) width height image u w
  = (Ok tt,
     drew (cleared width height [Drawn image (lit 0) (lit 0)])
       (revoked u (object_urls w))
       (clear_calls width height
        ++ [call_drawImage image (lit 0) (lit 0); call_revokeObjectURL u])
       w).
Proof.
  unfold Rev2.onload, Rev2.clearCanvas, Rev2.setCanvasBgColor.
  same_canvas w.
Qed.

Lemma Rev2_cleanup_run (width height : number) (u : url) (w : World) :
  Rev2.cleanup (Some context2d) width height u w
  = (Ok tt,
     drew (cleared width height []) (revoked u (object_urls w))
       (clear_calls width height ++ [call_revokeObjectURL u]) w).
Proof.
  unfold Rev2.cleanup, Rev2.clearCanvas, Rev2.setCanvasBgColor.
  same_canvas w.
Qed.

Lemma Rev2_cleanup_null (width height : number) (u : url) (w : World) :
  Rev2.cleanup None width height u w
  = (Ok tt, drew id (revoked u (object_urls w)) [call_revokeObjectURL u] w).
Proof. unfold Rev2.cleanup, Rev2.clearCanvas. same_canvas w. Qed.

Lemma Rev2_effect_run (children : VNode) (width height : number)
    (w : World) (canvas : Canvas) :
  canvasRef w = Some canvas ->
  let image := length (images w) in
  let u := ObjectURL (next_object_url w) in
  let svg := Rev2.svgMarkup (render children) width height in
  let type := js "image/svg+xml;charset=utf-8" in
  Rev2.effect children width height w
  = (Ok (Some (Rev2_cleanup (context_of w) width height u)),
     loading
       {| src := Some u;
          onload := Some (Rev2_onload (context_of w) width height image u);
          onerror := None |}
       (<[next_object_url w := {| blob_content := svg; blob_type := type |}]>
          (object_urls w))
       (S (next_object_url w))
       [call_render children; call_new_Image image; call_new_Blob svg type;
        call_createObjectURL u; call_getContext; call_set_onload image;
        call_set_src image u]
       w).
Proof.
  intros H image u svg type.
  unfold Rev2.effect, bind, get_canvasRef. rewrite H. run. reflexivity.
Qed.

(** *** Revision 3 *)

Lemma Rev3_onload_run (width height : number) (image : nat) (w : World) :
  Rev3.onload (Some context2d) width height image w
  = (Ok tt,
     drew (cleared width height [Drawn image (lit 0) (lit 0)])
       (object_urls w)
       (clear_calls width height ++ [call_drawImage image (lit 0) (lit 0)])
       w).
Proof.
  unfold Rev3.onload, Rev3.clearCanvas, Rev3.setCanvasBgColor.
  same_canvas w.
Qed.

Lemma Rev3_cleanup_run (width height : number) (w : World) :
  Rev3.cleanup (Some context2d) width height w
  = (Ok tt,
     drew (cleared width height []) (object_urls w)
       (clear_calls width height) w).
Proof.
  unfold Rev3.cleanup, Rev3.clearCanvas, Rev3.setCanvasBgColor.
  same_canvas w.
Qed.

Lemma Rev3_effect_run (children : VNode) (width height : number)
    (w : World) (canvas : Canvas) :
  canvasRef w = Some canvas ->
  let image := length (images w) in
  let svg :=
    Rev3.useSVGForeignObject (render children) (Some (width, height)) in
  Rev3.effect children width height w
  = match btoa svg with
    | Ok base64SvgMarkup =>
        let u := DataURL (js "data:image/svg+xml;base64,"
                          ++ base64SvgMarkup) in
        (Ok (Some (Rev3_cleanup (context_of w) width height)),
         loading
           {| src := Some u;
              onload := Some (Rev3_onload (context_of w) width height image);
              onerror := None |}
           (object_urls w) (next_object_url w)
           [call_render children; call_new_Image image; call_btoa svg;
            call_getContext; call_set_onload image; call_set_src image u]
           w)
    | Throw e =>
        (Throw e,
         loading {| src := None; onload := None; onerror := None |}
           (object_urls w) (next_object_url w)
           [call_render children; call_new_Image image; call_btoa svg]
           w)
    end.
Proof.
  intros H image svg.
  unfold Rev3.effect, bind, get_canvasRef. rewrite H. cbn.
  unfold encode_with, bind. cbn. fold svg.
  destruct (btoa svg) as [b|e]; run; reflexivity.
Qed.

(** *** Revision 4 *)

Lemma Rev4_onload_run (width height : number) (image : nat) (w : World) :
  Rev4.onload (Some context2d) width height image w
  = (Ok tt,
     drew (cleared width height [Drawn image (lit 0) (lit 0)])
       (object_urls w)
       (clear_calls width height ++ [call_drawImage image (lit 0) (lit 0)])
       w).
Proof.
  unfold Rev4.onload, Rev4.clearCanvas, Rev4.setCanvasBgColor.
  same_canvas w.
Qed.

Lemma Rev4_cleanup_run (width height : number) (w : World) :
  Rev4.cleanup (Some context2d) width height w
  = (Ok tt,
     drew (cleared width height []) (object_urls w)
       (clear_calls width height) w).
Proof.
  unfold Rev4.cleanup, Rev4.clearCanvas, Rev4.setCanvasBgColor.
  same_canvas w.
Qed.

Lemma Rev4_useSvgAsImageSrc_run (svgMarkup : jsstring) (w : World) :
  let image := length (images w) in
  let u := DataURL (js "data:image/svg+xml;base64,"
                    ++ base64_of_bytes (utob svgMarkup)) in
  Rev4.useSvgAsImageSrc svgMarkup w
  = (Ok image,
     loading {| src := Some u; onload := None; onerror := None |}
       (object_urls w) (next_object_url w)
       [call_new_Image image; call_Base64_encode svgMarkup;
        call_set_src image u]
       w).
Proof.
  intros image u. unfold Rev4.useSvgAsImageSrc, Base64_encode.
  run. reflexivity.
Qed.

Lemma Rev4_effect_run (children : VNode) (width height : number)
    (w : World) (canvas : Canvas) :
  canvasRef w = Some canvas ->
  let image := length (images w) in
  let svg :=
    Rev4.useSvgForeignObject (render children) (Some (width, height)) in
  let u := DataURL (js "data:image/svg+xml;base64,"
                    ++ base64_of_bytes (utob svg)) in
  Rev4.effect children width height w
  = (Ok (Some (Rev4_cleanup (context_of w) width height)),
     loading
       {| src := Some u;
          onload := Some (Rev4_onload (context_of w) width height image);
          onerror := None |}
       (object_urls w) (next_object_url w)
       [call_render children; call_new_Image image; call_Base64_encode svg;
        call_set_src image u; call_getContext; call_set_onload image]
       w).
Proof.
  intros H image svg u.
  unfold Rev4.effect, bind, get_canvasRef. rewrite H. cbn.
  unfold Rev4.useSvgAsImageSrc, Base64_encode. run. reflexivity.
Qed.

(** X1: the effect of every revision tests [canvasRef.current] first; when
    the ref is empty it renders nothing, creates no image, makes no call and
    returns no cleanup function. *)
Lemma effect_without_canvas (children : VNode) (width height : number)
    (w : World) :
  canvasRef w = None ->
  Rev1.effect children w = (Ok None, w)
  /\ Rev2.effect children width height w = (Ok None, w)
  /\ Rev3.effect children width height w = (Ok None, w)
  /\ Rev4.effect children width height w = (Ok None, w).
Proof.
  intros H.
  unfold Rev1.effect, Rev2.effect, Rev3.effect, Rev4.effect, bind,
    get_canvasRef.
  rewrite H. done.
Qed.

(** *** Mounting, image events and unmounting *)

Lemma lookup_new_image (image : Image) (urls : gmap nat Blob) (next : nat)
    (new : list Call) (w : World) :
  images (loading image urls next new w) !! length (images w) = Some image.
Proof. cbn. apply list_lookup_middle. done. Qed.

Lemma fire_load_new (image : Image) (urls : gmap nat Blob) (next : nat)
    (new : list Call) (w : World) :
  fire_load (length (images w)) (loading image urls next new w)
  = call_handler (onload image) (loading image urls next new w).
Proof. unfold fire_load. by rewrite lookup_new_image. Qed.


Lemma Rev1_mount_run (props : Props) (w : World) :
  let image := length (images w) in
  let u := ObjectURL (next_object_url w) in
  let svg := Rev1.svgMarkup (render (children props)) in
  let type := js "image/svg+xml;charset=utf-8" in
  mount Rev1.RenderOnCanvas props w
  = (Ok {| prev_deps := [dep_vnode (children props)];
           pending_cleanup := Some (Rev1_cleanup (context_of w) u) |},
     loading
       {| src := Some u;
          onload := Some (Rev1_onload (context_of w) image u);
          onerror := None |}
       (<[next_object_url w := {| blob_content := svg; blob_type := type |}]>
          (object_urls w))
       (S (next_object_url w))
       [call_render (children props); call_new_Image image;
        call_new_Blob svg type; call_createObjectURL u; call_getContext;
        call_set_onload image; call_set_src image u]
       (with_canvas (Some (fresh_canvas None None None)) w)).
Proof.
  destruct props as [c wd ht r]. intros image u svg type.
  unfold mount, bind, set_canvasRef, Rev1.RenderOnCanvas.
  cbn [use_effect use_effect_deps returned].
  erewrite Rev1_effect_run by reflexivity. reflexivity.
Qed.

Lemma Rev2_mount_run (props : Props) (w : World) :
  let width := default (lit 150) (width props) in
  let height := default (lit 150) (height props) in
  let image := length (images w) in
  let u := ObjectURL (next_object_url w) in
  let svg := Rev2.svgMarkup (render (children props)) width height in
  let type := js "image/svg+xml;charset=utf-8" in
  mount Rev2.RenderOnCanvas props w
  = (Ok {| prev_deps := [dep_vnode (children props)];
           pending_cleanup :=
             Some (Rev2_cleanup (context_of w) width height u) |},
     loading
       {| src := Some u;
          onload := Some (Rev2_onload (context_of w) width height image u);
          onerror := None |}
       (<[next_object_url w := {| blob_content := svg; blob_type := type |}]>
          (object_urls w))
       (S (next_object_url w))
       [call_render (children props); call_new_Image image;
        call_new_Blob svg type; call_createObjectURL u; call_getContext;
        call_set_onload image; call_set_src image u]
       (with_canvas (Some (fresh_canvas None None (Some (rest props)))) w)).
Proof.
  destruct props as [c wd ht r]. intros width height image u svg type.
  unfold mount, bind, set_canvasRef, Rev2.RenderOnCanvas.
  cbn [use_effect use_effect_deps returned].
  erewrite Rev2_effect_run by reflexivity. reflexivity.
Qed.

Lemma Rev3_mount_run (props : Props) (w : World) :
  let width := default (lit 150) (width props) in
  let height := default (lit 150) (height props) in
  let image := length (images w) in
  let svg :=
    Rev3.useSVGForeignObject (render (children props))
      (Some (width, height)) in
  let w0 := with_canvas (Some (fresh_canvas None None (Some (rest props))))
              w in
  mount Rev3.RenderOnCanvas props w
  = match btoa svg with
    | Ok base64SvgMarkup =>
        let u := DataURL (js "data:image/svg+xml;base64,"
                          ++ base64SvgMarkup) in
        (Ok {| prev_deps := [dep_vnode (children props)];
               pending_cleanup :=
                 Some (Rev3_cleanup (context_of w) width height) |},
         loading
           {| src := Some u;
              onload := Some (Rev3_onload (context_of w) width height image);
              onerror := None |}
           (object_urls w) (next_object_url w)
           [call_render (children props); call_new_Image image;
            call_btoa svg; call_getContext; call_set_onload image;
            call_set_src image u]
           w0)
    | Throw e =>
        (Throw e,
         loading {| src := None; onload := None; onerror := None |}
           (object_urls w) (next_object_url w)
           [call_render (children props); call_new_Image image;
            call_btoa svg]
           w0)
    end.
Proof.
  destruct props as [c wd ht r]. intros width height image svg w0.
  unfold mount, bind, set_canvasRef, Rev3.RenderOnCanvas.
  cbn [use_effect use_effect_deps returned].
  erewrite Rev3_effect_run by reflexivity.
  subst width height image svg w0. cbn [children width height rest].
  destruct (btoa _); reflexivity.
Qed.

Lemma Rev4_mount_run (props : Props) (w : World) :
  let width := default (lit 150) (width props) in
  let height := default (lit 150) (height props) in
  let image := length (images w) in
  let svg :=
    Rev4.useSvgForeignObject (render (children props))
      (Some (width, height)) in
  let u := DataURL (js "data:image/svg+xml;base64,"
                    ++ base64_of_bytes (utob svg)) in
  mount Rev4.RenderOnCanvas props w
  = (Ok {| prev_deps := [dep_vnode (children props)];
           pending_cleanup :=
             Some (Rev4_cleanup (context_of w) width height) |},
     loading
       {| src := Some u;
          onload := Some (Rev4_onload (context_of w) width height image);
          onerror := None |}
       (object_urls w) (next_object_url w)
       [call_render (children props); call_new_Image image;
        call_Base64_encode svg; call_set_src image u; call_getContext;
        call_set_onload image]
       (with_canvas
          (Some (fresh_canvas (Some width) (Some height)
                   (Some (rest props)))) w)).
Proof.
  destruct props as [c wd ht r]. intros width height image svg u.
  unfold mount, bind, set_canvasRef, Rev4.RenderOnCanvas.
  cbn [use_effect use_effect_deps returned].
  erewrite Rev4_effect_run by reflexivity. reflexivity.
Qed.

End Runs.

(** Before the first render the ref is empty. *)
Lemma effect_without_canvas_witness :
  canvasRef (empty_world true) = None
  /\ Rev2.effect (children hi_props) 150%Z 150%Z (empty_world true)
     = (Ok None, empty_world true).
Proof.
  split; [reflexivity|].
  exact (proj1 (proj2 (effect_without_canvas (children hi_props)
                         150%Z 150%Z (empty_world true) eq_refl))).
Defined.

(** ** The SVG markup *)

Section Markup.
Context `{P : Platform}.

Lemma svg_document_Rev2 (h : jsstring) (w ht : number) :
  Rev2.svgMarkup h w ht = svg_document h w ht.
Proof.
  unfold Rev2.svgMarkup, svg_document, Rev2.namespaces, quoted.
  cbn [join]. rewrite <- ?app_assoc. reflexivity.
Qed.

Lemma svg_document_Rev3 (h : jsstring) (w ht : number) :
  Rev3.useSVGForeignObject h (Some (w, ht)) = svg_document h w ht.
Proof.
  unfold Rev3.useSVGForeignObject, svg_document, Rev3.namespaces, quoted.
  cbn [join from_option id]. rewrite <- ?app_assoc. reflexivity.
Qed.

Lemma svg_document_Rev4 (h : jsstring) (w ht : number) :
  Rev4.useSvgForeignObject h (Some (w, ht)) = svg_document h w ht.
Proof.
  unfold Rev4.useSvgForeignObject, svg_document, Rev4.namespaces, quoted.
  cbn [join from_option id]. rewrite <- ?app_assoc. reflexivity.
Qed.

Lemma svg_document_Rev1 (h : jsstring) :
  ToString (lit 500) = js "500" ->
  Rev1.svgMarkup h = svg_document h (lit 500) (lit 500).
Proof.
  intros H. unfold Rev1.svgMarkup, svg_document, Rev1.namespaces, quoted.
  rewrite H. cbn [join]. rewrite <- ?app_assoc. reflexivity.
Qed.

(** C1: for every HTML markup [htmlMarkup], width [w] and height [ht], the
    SVG-generation step (the hook of the [js-base64] revision, the hook of
    the [btoa] revision, and the inline construction of the object-URL
    revision) returns exactly the [svg:svg] start tag with the XHTML
    namespace as default namespace, the [svg:] prefix bound to the SVG
    namespace, [height] and [width], then the [svg:foreignObject] start tag
    with the same [height] and [width], then [htmlMarkup] unchanged, then
    the two end tags. *)
Theorem svg_markup_wraps_html_in_foreignObject
    (htmlMarkup : jsstring) (w ht : number) :
  let document :=
    js "<svg:svg xmlns=" ++ dquote ++ js "http://www.w3.org/1999/xhtml"
    ++ dquote ++ js " xmlns:svg=" ++ dquote
    ++ js "http://www.w3.org/2000/svg" ++ dquote
    ++ js " height=" ++ dquote ++ ToString ht ++ dquote
    ++ js " width=" ++ dquote ++ ToString w ++ dquote ++ js ">"
    ++ js "<svg:foreignObject height=" ++ dquote ++ ToString ht ++ dquote
    ++ js " width=" ++ dquote ++ ToString w ++ dquote ++ js ">"
    ++ htmlMarkup
    ++ js "</svg:foreignObject>"
    ++ js "</svg:svg>" in
  Rev4.useSvgForeignObject htmlMarkup (Some (w, ht)) = document
  /\ Rev3.useSVGForeignObject htmlMarkup (Some (w, ht)) = document
  /\ Rev2.svgMarkup htmlMarkup w ht = document
  /\ svg_document htmlMarkup w ht = document.
Proof.
  intros document.
  rewrite ?svg_document_Rev4, ?svg_document_Rev3, ?svg_document_Rev2.
  repeat split; reflexivity.
Qed.

(** C2: the SVG-generation step is the same in all four revisions: the two
    hooks and the inline construction of the object-URL revision return the
    same string for every HTML markup, width and height, and the inline
    construction of the earliest revision returns that string at width =
    height = 500. The number 500 prints as the numeral 500. *)
Theorem svg_markup_same_in_all_revisions
    (htmlMarkup : jsstring) (w ht : number)
    (print_500 : ToString (lit 500) = js "500") :
  Rev4.useSvgForeignObject htmlMarkup (Some (w, ht))
  = Rev3.useSVGForeignObject htmlMarkup (Some (w, ht))
  /\ Rev3.useSVGForeignObject htmlMarkup (Some (w, ht))
     = Rev2.svgMarkup htmlMarkup w ht
  /\ Rev1.svgMarkup htmlMarkup
     = Rev2.svgMarkup htmlMarkup (lit 500) (lit 500)
  /\ Rev1.svgMarkup htmlMarkup
     = Rev3.useSVGForeignObject htmlMarkup (Some (lit 500, lit 500))
  /\ Rev1.svgMarkup htmlMarkup
     = Rev4.useSvgForeignObject htmlMarkup (Some (lit 500, lit 500)).
Proof.
  rewrite ?svg_document_Rev4, ?svg_document_Rev3, ?svg_document_Rev2.
  rewrite (svg_document_Rev1 htmlMarkup print_500).
  repeat split; reflexivity.
Qed.

End Markup.

(** The markup of [<p>hi</p>] at 300 by 150 on the integer platform. *)
Lemma svg_markup_same_in_all_revisions_witness :
  @ToString integer_platform (lit 500) = js "500"
  /\ @Rev1.svgMarkup (js "<p>hi</p>")
     = @Rev4.useSvgForeignObject integer_platform (js "<p>hi</p>")
         (Some (500%Z, 500%Z))
  /\ @Rev4.useSvgForeignObject integer_platform (js "<p>hi</p>")
       (Some (300%Z, 150%Z))
     = @Rev2.svgMarkup integer_platform (js "<p>hi</p>") 300%Z 150%Z.
Proof.
  pose proof (@svg_markup_same_in_all_revisions integer_platform
                (js "<p>hi</p>") 300%Z 150%Z eq_refl) as (H43 & H32 & _ & _ & H14).
  split; [reflexivity|]. split; [exact H14|].
  exact (eq_trans H43 H32).
Defined.

(** ** The image source *)

Section ImageSource.
Context `{P : Platform}.

Lemma src_of_new_image (image : Image) (urls : gmap nat Blob) (next : nat)
    (new : list Call) (w : World) :
  src_of (loading image urls next new w) (length (images w)) = src image.
Proof. unfold src_of. by rewrite lookup_new_image. Qed.

(** C4: in the two data-URL revisions the image source is the string
    [data:image/svg+xml;base64,] followed by the Base64 encoding of the SVG
    markup. With [js-base64] the encoding succeeds for every string, code
    points above U+00FF included, so the effect never throws there. With
    [btoa] the source is assigned when [btoa] returns, and when [btoa]
    throws the effect throws and assigns no source; this happens for a
    markup containing a code point above U+00FF. *)
Theorem data_url_is_base64_of_svg_markup (props : Props) (w : World) :
  let width := default (lit 150) (width props) in
  let height := default (lit 150) (height props) in
  let html := render (children props) in
  let image := length (images w) in
  let prefix := js "data:image/svg+xml;base64," in
  (exists encoded inst,
     Base64_encode (Rev4.useSvgForeignObject html (Some (width, height)))
     = Ok encoded
     /\ fst (mount Rev4.RenderOnCanvas props w) = Ok inst
     /\ src_of (snd (mount Rev4.RenderOnCanvas props w)) image
        = Some (DataURL (prefix ++ encoded)))
  /\ (forall s : jsstring, exists encoded, Base64_encode s = Ok encoded)
  /\ match btoa (Rev3.useSVGForeignObject html (Some (width, height))) with
     | Ok encoded =>
         src_of (snd (mount Rev3.RenderOnCanvas props w)) image
         = Some (DataURL (prefix ++ encoded))
     | Throw e =>
         fst (mount Rev3.RenderOnCanvas props w) = Throw e
         /\ src_of (snd (mount Rev3.RenderOnCanvas props w)) image = None
     end
  /\ (exists s : jsstring,
        Exists (fun c => 255 < c) s
        /\ btoa s = Throw InvalidCharacterError
        /\ forall wd ht : number,
             btoa (Rev3.useSVGForeignObject s (Some (wd, ht)))
             = Throw InvalidCharacterError).
Proof.
  intros width height html image prefix. repeat split.
  - eexists _, _. rewrite Rev4_mount_run. cbn [fst snd].
    rewrite src_of_new_image. cbn [src]. unfold Base64_encode.
    repeat split; reflexivity.
  - intros s. by eexists.
  - rewrite Rev3_mount_run. fold width height html.
    destruct (btoa _) as [encoded|e]; cbn [fst snd];
      rewrite src_of_new_image; cbn [src]; [done | by split].
  - exists [8364]. split; [|split].
    + apply Exists_cons_hd. lia.
    + reflexivity.
    + intros wd ht. rewrite svg_document_Rev3.
      apply (btoa_throws _ 8364); [|lia].
      unfold svg_document. rewrite !in_app_iff. cbn. tauto.
Qed.

End ImageSource.

(** ** Handlers on any context *)

Section Handlers.
Context `{P : Platform}.

Lemma Rev1_onload_any (context : option Context2D) (image : nat) (u : url)
    (w : World) :
  Rev1.onload context image u w
  = (Ok tt,
     if truthy context then
       drew (cleared (lit 500) (lit 500) [Drawn image (lit 0) (lit 0)])
         (revoked u (object_urls w))
         (clear_calls (lit 500) (lit 500)
          ++ [call_drawImage image (lit 0) (lit 0); call_revokeObjectURL u])
         w
     else w).
Proof. destruct context as [[]|]; [apply Rev1_onload_run | done]. Qed.

Lemma Rev1_cleanup_any (context : option Context2D) (u : url) (w : World) :
  Rev1.cleanup context u w
  = (Ok tt,
     drew (if truthy context then cleared (lit 500) (lit 500) [] else id)
       (revoked u (object_urls w))
       ((if truthy context then clear_calls (lit 500) (lit 500) else [])
        ++ [call_revokeObjectURL u])
       w).
Proof.
  destruct context as [[]|]; [apply Rev1_cleanup_run | apply Rev1_cleanup_null].
Qed.

Lemma Rev2_onload_any (context : option Context2D) (width height : number)
    (image : nat) (u : url) (w : World) :
  Rev2.onload context width height image u w
  = (Ok tt,
     if truthy context then
       drew (cleared width height [Drawn image (lit 0) (lit 0)])
         (revoked u (object_urls w))
         (clear_calls width height
          ++ [call_drawImage image (lit 0) (lit 0); call_revokeObjectURL u])
         w
     else w).
Proof. destruct context as [[]|]; [apply Rev2_onload_run | done]. Qed.

Lemma Rev2_cleanup_any (context : option Context2D) (width height : number)
    (u : url) (w : World) :
  Rev2.cleanup context width height u w
  = (Ok tt,
     drew (if truthy context then cleared width height [] else id)
       (revoked u (object_urls w))
       ((if truthy context then clear_calls width height else [])
        ++ [call_revokeObjectURL u])
       w).
Proof.
  destruct context as [[]|]; [apply Rev2_cleanup_run | apply Rev2_cleanup_null].
Qed.

Lemma Rev3_onload_any (context : option Context2D) (width height : number)
    (image : nat) (w : World) :
  Rev3.onload context width height image w
  = (Ok tt,
     if truthy context then
       drew (cleared width height [Drawn image (lit 0) (lit 0)])
         (object_urls w)
         (clear_calls width height
          ++ [call_drawImage image (lit 0) (lit 0)])
         w
     else w).
Proof. destruct context as [[]|]; [apply Rev3_onload_run | done]. Qed.

Lemma Rev3_cleanup_any (context : option Context2D) (width height : number)
    (w : World) :
  Rev3.cleanup context width height w
  = (Ok tt,
     if truthy context then
       drew (cleared width height []) (object_urls w)
         (clear_calls width height) w
     else w).
Proof. destruct context as [[]|]; [apply Rev3_cleanup_run | done]. Qed.

Lemma Rev4_onload_any (context : option Context2D) (width height : number)
    (image : nat) (w : World) :
  Rev4.onload context width height image w
  = (Ok tt,
     if truthy context then
       drew (cleared width height [Drawn image (lit 0) (lit 0)])
         (object_urls w)
         (clear_calls width height
          ++ [call_drawImage image (lit 0) (lit 0)])
         w
     else w).
Proof. destruct context as [[]|]; [apply Rev4_onload_run | done]. Qed.

Lemma Rev4_cleanup_any (context : option Context2D) (width height : number)
    (w : World) :
  Rev4.cleanup context width height w
  = (Ok tt,
     if truthy context then
       drew (cleared width height []) (object_urls w)
         (clear_calls width height) w
     else w).
Proof. destruct context as [[]|]; [apply Rev4_cleanup_run | done]. Qed.

Lemma truthy_context_of (w : World) :
  truthy (context_of w) = has_context2d w.
Proof. unfold context_of. by destruct (has_context2d w). Qed.

End Handlers.

(** ** Image events after the first render *)

Section AfterMount.
Context `{P : Platform}.

Lemma Rev1_load_after_mount (props : Props) (w : World) :
  let image := length (images w) in
  let u := ObjectURL (next_object_url w) in
  let w1 := mounted Rev1.RenderOnCanvas props w in
  fire_load image w1
  = (Ok tt,
     if has_context2d w then
       drew (cleared (lit 500) (lit 500) [Drawn image (lit 0) (lit 0)])
         (revoked u (object_urls w1))
         (clear_calls (lit 500) (lit 500)
          ++ [call_drawImage image (lit 0) (lit 0); call_revokeObjectURL u])
         w1
     else w1).
Proof.
  intros image u w1. subst w1. unfold mounted.
  rewrite Rev1_mount_run. cbn [snd].
  rewrite (fire_load_new _ _ _ _ (with_canvas _ w)). cbn [onload call_handler call].
  rewrite Rev1_onload_any, truthy_context_of. reflexivity.
Qed.

Lemma Rev2_load_after_mount (props : Props) (w : World) :
  let width := default (lit 150) (width props) in
  let height := default (lit 150) (height props) in
  let image := length (images w) in
  let u := ObjectURL (next_object_url w) in
  let w1 := mounted Rev2.RenderOnCanvas props w in
  fire_load image w1
  = (Ok tt,
     if has_context2d w then
       drew (cleared width height [Drawn image (lit 0) (lit 0)])
         (revoked u (object_urls w1))
         (clear_calls width height
          ++ [call_drawImage image (lit 0) (lit 0); call_revokeObjectURL u])
         w1
     else w1).
Proof.
  intros width height image u w1. subst w1. unfold mounted.
  rewrite Rev2_mount_run. cbn [snd].
  rewrite (fire_load_new _ _ _ _ (with_canvas _ w)). cbn [onload call_handler call].
  rewrite Rev2_onload_any, truthy_context_of. reflexivity.
Qed.

Lemma Rev3_load_after_mount (props : Props) (w : World) :
  let width := default (lit 150) (width props) in
  let height := default (lit 150) (height props) in
  let image := length (images w) in
  let w1 := mounted Rev3.RenderOnCanvas props w in
  fire_load image w1
  = (Ok tt,
     if has_context2d w
        && latin1 (Rev3.useSVGForeignObject (render (children props))
                     (Some (width, height)))
     then
       drew (cleared width height [Drawn image (lit 0) (lit 0)])
         (object_urls w1)
         (clear_calls width height
          ++ [call_drawImage image (lit 0) (lit 0)])
         w1
     else w1).
Proof.
  intros width height image w1. subst w1. unfold mounted.
  rewrite Rev3_mount_run. fold width height. unfold btoa.
  destruct (latin1 _); cbn [snd];
    rewrite (fire_load_new _ _ _ _ (with_canvas _ w));
    cbn [onload call_handler call].
  - rewrite Rev3_onload_any, truthy_context_of, andb_true_r. reflexivity.
  - by rewrite andb_false_r.
Qed.

Lemma Rev4_load_after_mount (props : Props) (w : World) :
  let width := default (lit 150) (width props) in
  let height := default (lit 150) (height props) in
  let image := length (images w) in
  let w1 := mounted Rev4.RenderOnCanvas props w in
  fire_load image w1
  = (Ok tt,
     if has_context2d w then
       drew (cleared width height [Drawn image (lit 0) (lit 0)])
         (object_urls w1)
         (clear_calls width height
          ++ [call_drawImage image (lit 0) (lit 0)])
         w1
     else w1).
Proof.
  intros width height image w1. subst w1. unfold mounted.
  rewrite Rev4_mount_run. cbn [snd].
  rewrite (fire_load_new _ _ _ _ (with_canvas _ w)). cbn [onload call_handler call].
  rewrite Rev4_onload_any, truthy_context_of. reflexivity.
Qed.


End AfterMount.

(** ** The calls of the first render *)

Section MountCalls.
Context `{P : Platform}.

Lemma new_calls_mount_Rev1 (props : Props) (w : World) :
  let image := length (images w) in
  let u := ObjectURL (next_object_url w) in
  let svg := Rev1.svgMarkup (render (children props)) in
  let type := js "image/svg+xml;charset=utf-8" in
  new_calls (mount Rev1.RenderOnCanvas props) w
  = [call_render (children props); call_new_Image image;
     call_new_Blob svg type; call_createObjectURL u; call_getContext;
     call_set_onload image; call_set_src image u].
Proof.
  intros. unfold new_calls. rewrite Rev1_mount_run.
  cbn [snd calls loading with_canvas]. apply drop_app_length.
Qed.

Lemma new_calls_mount_Rev2 (props : Props) (w : World) :
  let width := default (lit 150) (width props) in
  let height := default (lit 150) (height props) in
  let image := length (images w) in
  let u := ObjectURL (next_object_url w) in
  let svg := Rev2.svgMarkup (render (children props)) width height in
  let type := js "image/svg+xml;charset=utf-8" in
  new_calls (mount Rev2.RenderOnCanvas props) w
  = [call_render (children props); call_new_Image image;
     call_new_Blob svg type; call_createObjectURL u; call_getContext;
     call_set_onload image; call_set_src image u].
Proof.
  intros. unfold new_calls. rewrite Rev2_mount_run.
  cbn [snd calls loading with_canvas]. apply drop_app_length.
Qed.

Lemma new_calls_mount_Rev4 (props : Props) (w : World) :
  let width := default (lit 150) (width props) in
  let height := default (lit 150) (height props) in
  let image := length (images w) in
  let svg :=
    Rev4.useSvgForeignObject (render (children props))
      (Some (width, height)) in
  let u := DataURL (js "data:image/svg+xml;base64,"
                    ++ base64_of_bytes (utob svg)) in
  new_calls (mount Rev4.RenderOnCanvas props) w
  = [call_render (children props); call_new_Image image;
     call_Base64_encode svg; call_set_src image u; call_getContext;
     call_set_onload image].
Proof.
  intros. unfold new_calls. rewrite Rev4_mount_run.
  cbn [snd calls loading with_canvas]. apply drop_app_length.
Qed.

Lemma new_calls_mount_Rev3 (props : Props) (w : World) :
  let width := default (lit 150) (width props) in
  let height := default (lit 150) (height props) in
  let image := length (images w) in
  let svg :=
    Rev3.useSVGForeignObject (render (children props))
      (Some (width, height)) in
  new_calls (mount Rev3.RenderOnCanvas props) w
  = [call_render (children props); call_new_Image image; call_btoa svg]
    ++ match btoa svg with
       | Ok base64SvgMarkup =>
           [call_getContext; call_set_onload image;
            call_set_src image
              (DataURL (js "data:image/svg+xml;base64,"
                        ++ base64SvgMarkup))]
       | Throw _ => []
       end.
Proof.
  intros width height image svg.
  unfold new_calls. rewrite Rev3_mount_run. fold width height image svg.
  destruct (btoa svg); cbn [snd calls loading with_canvas];
    rewrite drop_app_length; reflexivity.
Qed.

End MountCalls.

(** ** The order of the pipeline *)

Section Pipeline.
Context `{P : Platform}.

(** A later render runs the pending cleanup and the effect again exactly
    when the children are another object. *)
Lemma update_on_children (component : Props -> Rendered)
    (c : VNode) (cleanup : Closure) (props' : Props) :
  use_effect_deps (component props') = [dep_vnode (children props')] ->
  update component (instance_for c cleanup) props'
  = if bool_decide (c = children props') then
      set_canvas (patch_canvas (returned (component props'))) >>
      ret (instance_for c cleanup)
    else
      set_canvas (patch_canvas (returned (component props'))) >>
      call cleanup >>
      let* cleanup' := use_effect (component props') in
      ret {| prev_deps := [dep_vnode (children props')];
             pending_cleanup := cleanup' |}.
Proof.
  intros Hdeps. unfold update, instance_for. cbn [prev_deps pending_cleanup].
  rewrite Hdeps. cbn [argsChanged same_dep call_handler].
  destruct (bool_decide (c = children props')); reflexivity.
Qed.

Lemma deps_are_children (props : Props) :
  use_effect_deps (Rev1.RenderOnCanvas props) = [dep_vnode (children props)]
  /\ use_effect_deps (Rev2.RenderOnCanvas props)
     = [dep_vnode (children props)]
  /\ use_effect_deps (Rev3.RenderOnCanvas props)
     = [dep_vnode (children props)]
  /\ use_effect_deps (Rev4.RenderOnCanvas props)
     = [dep_vnode (children props)].
Proof. by destruct props. Qed.

(** The calls of a handler whose run is known. *)
Ltac calls_by H :=
  unfold new_calls; rewrite H;
  try destruct (has_context2d _);
  cbn [snd calls drew]; rewrite ?drop_app_length, ?drop_all, <- ?app_assoc;
  reflexivity.

Lemma load_calls_Rev1 (props : Props) (w : World) :
  let image := length (images w) in
  new_calls (fire_load image) (mounted Rev1.RenderOnCanvas props w)
  = if has_context2d w then
      clear_calls (lit 500) (lit 500)
      ++ [call_drawImage image (lit 0) (lit 0);
          call_revokeObjectURL (ObjectURL (next_object_url w))]
    else [].
Proof. cbv zeta. calls_by Rev1_load_after_mount. Qed.

Lemma load_calls_Rev2 (props : Props) (w : World) :
  let width := default (lit 150) (width props) in
  let height := default (lit 150) (height props) in
  let image := length (images w) in
  new_calls (fire_load image) (mounted Rev2.RenderOnCanvas props w)
  = if has_context2d w then
      clear_calls width height
      ++ [call_drawImage image (lit 0) (lit 0);
          call_revokeObjectURL (ObjectURL (next_object_url w))]
    else [].
Proof. cbv zeta. calls_by Rev2_load_after_mount. Qed.

Lemma load_calls_Rev3 (props : Props) (w : World) :
  let width := default (lit 150) (width props) in
  let height := default (lit 150) (height props) in
  let image := length (images w) in
  new_calls (fire_load image) (mounted Rev3.RenderOnCanvas props w)
  = if has_context2d w
       && latin1 (Rev3.useSVGForeignObject (render (children props))
                    (Some (width, height)))
    then clear_calls width height ++ [call_drawImage image (lit 0) (lit 0)]
    else [].
Proof.
  cbv zeta. unfold new_calls. rewrite Rev3_load_after_mount.
  destruct (_ && _); cbn [snd calls drew];
    rewrite ?drop_app_length, ?drop_all; reflexivity.
Qed.

Lemma load_calls_Rev4 (props : Props) (w : World) :
  let width := default (lit 150) (width props) in
  let height := default (lit 150) (height props) in
  let image := length (images w) in
  new_calls (fire_load image) (mounted Rev4.RenderOnCanvas props w)
  = if has_context2d w
    then clear_calls width height ++ [call_drawImage image (lit 0) (lit 0)]
    else [].
Proof. cbv zeta. calls_by Rev4_load_after_mount. Qed.

(** The calls of the cleanup functions, in any world. *)
Lemma cleanup_calls (context : option Context2D) (width height : number)
    (u : url) (w : World) :
  new_calls (call (Rev1_cleanup context u)) w
  = (if truthy context then clear_calls (lit 500) (lit 500) else [])
    ++ [call_revokeObjectURL u]
  /\ new_calls (call (Rev2_cleanup context width height u)) w
     = (if truthy context then clear_calls width height else [])
       ++ [call_revokeObjectURL u]
  /\ new_calls (call (Rev3_cleanup context width height)) w
     = (if truthy context then clear_calls width height else [])
  /\ new_calls (call (Rev4_cleanup context width height)) w
     = (if truthy context then clear_calls width height else []).
Proof.
  unfold new_calls. cbn [call].
  rewrite Rev1_cleanup_any, Rev2_cleanup_any, Rev3_cleanup_any,
    Rev4_cleanup_any.
  destruct (truthy context); cbn [snd calls drew];
    rewrite ?drop_app_length, ?drop_all; done.
Qed.

(** Unmounting logs the calls of the pending cleanup and nothing else. *)
Lemma unmount_calls (c : VNode) (cleanup : Closure) (w w' : World) :
  call cleanup w = (Ok tt, w') ->
  new_calls (unmount (instance_for c cleanup)) w
  = new_calls (call cleanup) w.
Proof.
  intros H. unfold new_calls, unmount, bind, instance_for.
  cbn [pending_cleanup call_handler]. rewrite H. reflexivity.
Qed.

Lemma call_cleanup_returns (context : option Context2D)
    (width height : number) (u : url) (w : World) :
  (exists w', call (Rev1_cleanup context u) w = (Ok tt, w'))
  /\ (exists w', call (Rev2_cleanup context width height u) w = (Ok tt, w'))
  /\ (exists w', call (Rev3_cleanup context width height) w = (Ok tt, w'))
  /\ (exists w', call (Rev4_cleanup context width height) w = (Ok tt, w')).
Proof.
  cbn [call].
  rewrite Rev1_cleanup_any, Rev2_cleanup_any, Rev3_cleanup_any,
    Rev4_cleanup_any.
  repeat split; eexists; reflexivity.
Qed.

Lemma unmount_calls_all (c : VNode) (context : option Context2D)
    (width height : number) (u : url) (w : World) :
  new_calls (unmount (instance_for c (Rev1_cleanup context u))) w
  = (if truthy context then clear_calls (lit 500) (lit 500) else [])
    ++ [call_revokeObjectURL u]
  /\ new_calls
       (unmount (instance_for c (Rev2_cleanup context width height u))) w
     = (if truthy context then clear_calls width height else [])
       ++ [call_revokeObjectURL u]
  /\ new_calls (unmount (instance_for c (Rev3_cleanup context width height)))
       w
     = (if truthy context then clear_calls width height else [])
  /\ new_calls (unmount (instance_for c (Rev4_cleanup context width height)))
       w
     = (if truthy context then clear_calls width height else []).
Proof.
  destruct (call_cleanup_returns context width height u w)
    as ([w1 H1] & [w2 H2] & [w3 H3] & [w4 H4]).
  destruct (cleanup_calls context width height u w) as (C1 & C2 & C3 & C4).
  rewrite (unmount_calls _ _ _ _ H1), (unmount_calls _ _ _ _ H2),
    (unmount_calls _ _ _ _ H3), (unmount_calls _ _ _ _ H4).
  done.
Qed.

(** C3 (as amended): each effect run renders the children to an HTML
    string, wraps it in SVG markup, turns the markup into an image source
    (an object URL of a blob, or a data URL) and assigns it to a new
    [Image], in this order, and paints nothing. Only the [load] event of
    that image clears the canvas and draws the image at (0, 0), and it does
    so when the 2D context is not [null]. Unmounting runs the cleanup
    function of the run; a later render runs it, followed by the effect,
    when the children are another object, and runs neither otherwise. In the
    [btoa] revision all of this holds when [btoa] returns; when it throws,
    the effect throws before a source is assigned and nothing is drawn. *)
Theorem effect_pipeline_in_order (props props' : Props) (w : World) :
  let c := children props in
  let width := default (lit 150) (width props) in
  let height := default (lit 150) (height props) in
  let image := length (images w) in
  let u := ObjectURL (next_object_url w) in
  let type := js "image/svg+xml;charset=utf-8" in
  let prefix := js "data:image/svg+xml;base64," in
  let draw (width height : number) :=
    clear_calls width height ++ [call_drawImage image (lit 0) (lit 0)] in
  (let svg := Rev2.svgMarkup (render c) width height in
   let cleanup := Rev2_cleanup (context_of w) width height u in
   let w1 := mounted Rev2.RenderOnCanvas props w in
   fst (mount Rev2.RenderOnCanvas props w) = Ok (instance_for c cleanup)
   /\ new_calls (mount Rev2.RenderOnCanvas props) w
      = [call_render c; call_new_Image image; call_new_Blob svg type;
         call_createObjectURL u; call_getContext; call_set_onload image;
         call_set_src image u]
   /\ new_calls (fire_load image) w1
      = (if has_context2d w
         then draw width height ++ [call_revokeObjectURL u] else [])
   /\ new_calls (unmount (instance_for c cleanup)) w1
      = (if has_context2d w then clear_calls width height else [])
        ++ [call_revokeObjectURL u]
   /\ update Rev2.RenderOnCanvas (instance_for c cleanup) props'
      = if bool_decide (c = children props') then
          set_canvas (patch_canvas (returned (Rev2.RenderOnCanvas props')))
          >> ret (instance_for c cleanup)
        else
          set_canvas (patch_canvas (returned (Rev2.RenderOnCanvas props')))
          >> call cleanup
          >> let* cleanup' := use_effect (Rev2.RenderOnCanvas props') in
             ret {| prev_deps := [dep_vnode (children props')];
                    pending_cleanup := cleanup' |})
  /\
  (let svg := Rev1.svgMarkup (render c) in
   let cleanup := Rev1_cleanup (context_of w) u in
   let w1 := mounted Rev1.RenderOnCanvas props w in
   fst (mount Rev1.RenderOnCanvas props w) = Ok (instance_for c cleanup)
   /\ new_calls (mount Rev1.RenderOnCanvas props) w
      = [call_render c; call_new_Image image; call_new_Blob svg type;
         call_createObjectURL u; call_getContext; call_set_onload image;
         call_set_src image u]
   /\ new_calls (fire_load image) w1
      = (if has_context2d w
         then draw (lit 500) (lit 500) ++ [call_revokeObjectURL u] else [])
   /\ new_calls (unmount (instance_for c cleanup)) w1
      = (if has_context2d w then clear_calls (lit 500) (lit 500) else [])
        ++ [call_revokeObjectURL u]
   /\ update Rev1.RenderOnCanvas (instance_for c cleanup) props'
      = if bool_decide (c = children props') then
          set_canvas (patch_canvas (returned (Rev1.RenderOnCanvas props')))
          >> ret (instance_for c cleanup)
        else
          set_canvas (patch_canvas (returned (Rev1.RenderOnCanvas props')))
          >> call cleanup
          >> let* cleanup' := use_effect (Rev1.RenderOnCanvas props') in
             ret {| prev_deps := [dep_vnode (children props')];
                    pending_cleanup := cleanup' |})
  /\
  (let svg := Rev4.useSvgForeignObject (render c) (Some (width, height)) in
   let data_url := DataURL (prefix ++ base64_of_bytes (utob svg)) in
   let cleanup := Rev4_cleanup (context_of w) width height in
   let w1 := mounted Rev4.RenderOnCanvas props w in
   fst (mount Rev4.RenderOnCanvas props w) = Ok (instance_for c cleanup)
   /\ new_calls (mount Rev4.RenderOnCanvas props) w
      = [call_render c; call_new_Image image; call_Base64_encode svg;
         call_set_src image data_url; call_getContext;
         call_set_onload image]
   /\ new_calls (fire_load image) w1
      = (if has_context2d w then draw width height else [])
   /\ new_calls (unmount (instance_for c cleanup)) w1
      = (if has_context2d w then clear_calls width height else [])
   /\ update Rev4.RenderOnCanvas (instance_for c cleanup) props'
      = if bool_decide (c = children props') then
          set_canvas (patch_canvas (returned (Rev4.RenderOnCanvas props')))
          >> ret (instance_for c cleanup)
        else
          set_canvas (patch_canvas (returned (Rev4.RenderOnCanvas props')))
          >> call cleanup
          >> let* cleanup' := use_effect (Rev4.RenderOnCanvas props') in
             ret {| prev_deps := [dep_vnode (children props')];
                    pending_cleanup := cleanup' |})
  /\
  (let svg := Rev3.useSVGForeignObject (render c) (Some (width, height)) in
   let cleanup := Rev3_cleanup (context_of w) width height in
   let w1 := mounted Rev3.RenderOnCanvas props w in
   match btoa svg with
   | Ok encoded =>
       fst (mount Rev3.RenderOnCanvas props w) = Ok (instance_for c cleanup)
       /\ new_calls (mount Rev3.RenderOnCanvas props) w
          = [call_render c; call_new_Image image; call_btoa svg;
             call_getContext; call_set_onload image;
             call_set_src image (DataURL (prefix ++ encoded))]
       /\ new_calls (fire_load image) w1
          = (if has_context2d w then draw width height else [])
       /\ new_calls (unmount (instance_for c cleanup)) w1
          = (if has_context2d w then clear_calls width height else [])
   | Throw e =>
       fst (mount Rev3.RenderOnCanvas props w) = Throw e
       /\ new_calls (mount Rev3.RenderOnCanvas props) w
          = [call_render c; call_new_Image image; call_btoa svg]
       /\ src_of w1 image = None
       /\ new_calls (fire_load image) w1 = []
   end
   /\ update Rev3.RenderOnCanvas (instance_for c cleanup) props'
      = if bool_decide (c = children props') then
          set_canvas (patch_canvas (returned (Rev3.RenderOnCanvas props')))
          >> ret (instance_for c cleanup)
        else
          set_canvas (patch_canvas (returned (Rev3.RenderOnCanvas props')))
          >> call cleanup
          >> let* cleanup' := use_effect (Rev3.RenderOnCanvas props') in
             ret {| prev_deps := [dep_vnode (children props')];
                    pending_cleanup := cleanup' |}).
Proof.
  cbv zeta.
  destruct (deps_are_children props') as (D1 & D2 & D3 & D4).
  destruct (unmount_calls_all (children props) (context_of w)
              (default (lit 150) (width props))
              (default (lit 150) (height props))
              (ObjectURL (next_object_url w))
              (mounted Rev1.RenderOnCanvas props w)) as (U1 & _).
  destruct (unmount_calls_all (children props) (context_of w)
              (default (lit 150) (width props))
              (default (lit 150) (height props))
              (ObjectURL (next_object_url w))
              (mounted Rev2.RenderOnCanvas props w)) as (_ & U2 & _).
  destruct (unmount_calls_all (children props) (context_of w)
              (default (lit 150) (width props))
              (default (lit 150) (height props))
              (ObjectURL (next_object_url w))
              (mounted Rev3.RenderOnCanvas props w)) as (_ & _ & U3 & _).
  destruct (unmount_calls_all (children props) (context_of w)
              (default (lit 150) (width props))
              (default (lit 150) (height props))
              (ObjectURL (next_object_url w))
              (mounted Rev4.RenderOnCanvas props w)) as (_ & _ & _ & U4).
  rewrite truthy_context_of in U1, U2, U3, U4.
  split; [|split; [|split]].
  - split; [|split; [|split; [|split]]].
    + by rewrite Rev2_mount_run.
    + apply new_calls_mount_Rev2.
    + rewrite <- app_assoc. apply load_calls_Rev2.
    + exact U2.
    + by apply update_on_children.
  - split; [|split; [|split; [|split]]].
    + by rewrite Rev1_mount_run.
    + apply new_calls_mount_Rev1.
    + rewrite <- app_assoc. apply load_calls_Rev1.
    + exact U1.
    + by apply update_on_children.
  - split; [|split; [|split; [|split]]].
    + by rewrite Rev4_mount_run.
    + apply new_calls_mount_Rev4.
    + apply load_calls_Rev4.
    + exact U4.
    + by apply update_on_children.
  - split; [|by apply update_on_children].
    pose proof (new_calls_mount_Rev3 props w) as Hcalls.
    pose proof (load_calls_Rev3 props w) as Hload.
    cbv zeta in Hcalls, Hload.
    unfold mounted in *. rewrite Rev3_mount_run in *.
    unfold btoa in *.
    destruct (latin1 _); cbn [fst snd] in *.
    + rewrite andb_true_r in Hload.
      split; [done|]. split; [exact Hcalls|]. split; [exact Hload|].
      exact U3.
    + rewrite andb_false_r in Hload.
      split; [done|]. split; [exact Hcalls|]. split; [|exact Hload].
      by rewrite (src_of_new_image _ _ _ _ (with_canvas _ w)).
Qed.

End Pipeline.

(** C3, as first stated, fails in two runs. With no 2D context: the image
    of the object-URL revision gets its source, its [load] event fires, and
    nothing is cleared or drawn. With the euro sign as children: the effect
    of the [btoa] revision throws, no source is assigned, and the [load]
    event, should it fire, runs nothing. *)
Lemma pipeline_stops_without_context_or_on_btoa_throw :
  let w1 := mounted Rev2.RenderOnCanvas hi_props (empty_world false) in
  let w3 := mounted Rev3.RenderOnCanvas euro_props (empty_world true) in
  src_of w1 0 = Some (ObjectURL 0)
  /\ new_calls (fire_load 0) w1 = []
  /\ pixels (snd (fire_load 0 w1)) = Some []
  /\ fst (mount Rev3.RenderOnCanvas euro_props (empty_world true))
     = Throw InvalidCharacterError
  /\ src_of w3 0 = None
  /\ new_calls (fire_load 0) w3 = [].
Proof. vm_compute. repeat split. Qed.

(** ** Object URLs *)

Section ObjectUrls.
Context `{P : Platform}.

(** C5 (as amended): in the two object-URL revisions each effect run
    creates one object URL, for a blob holding the SVG markup. When the 2D
    context is not [null] the [onload] handler revokes it right after
    drawing; when the context is [null] the handler makes no call at all.
    The cleanup function revokes it, again or for the first time, as its
    last call, whatever the context. After the cleanup, run in any world,
    the URL is no longer in the store. *)
Theorem object_url_is_released (props : Props) (w : World) :
  let n := next_object_url w in
  let u := ObjectURL n in
  let image := length (images w) in
  let type := js "image/svg+xml;charset=utf-8" in
  (let width := default (lit 150) (width props) in
   let height := default (lit 150) (height props) in
   let svg := Rev2.svgMarkup (render (children props)) width height in
   let w1 := mounted Rev2.RenderOnCanvas props w in
   let cleanup := Rev2_cleanup (context_of w) width height u in
   new_calls (mount Rev2.RenderOnCanvas props) w
   = [call_render (children props); call_new_Image image;
      call_new_Blob svg type; call_createObjectURL u; call_getContext;
      call_set_onload image; call_set_src image u]
   /\ object_urls w1 !! n = Some {| blob_content := svg; blob_type := type |}
   /\ fst (mount Rev2.RenderOnCanvas props w)
      = Ok {| prev_deps := [dep_vnode (children props)];
              pending_cleanup := Some cleanup |}
   /\ new_calls (fire_load image) w1
      = (if has_context2d w then
           clear_calls width height
           ++ [call_drawImage image (lit 0) (lit 0); call_revokeObjectURL u]
         else [])
   /\ forall w' : World,
        new_calls (call cleanup) w'
        = (if has_context2d w then clear_calls width height else [])
          ++ [call_revokeObjectURL u]
        /\ object_urls (snd (call cleanup w')) !! n = None)
  /\
  (let svg := Rev1.svgMarkup (render (children props)) in
   let w1 := mounted Rev1.RenderOnCanvas props w in
   let cleanup := Rev1_cleanup (context_of w) u in
   new_calls (mount Rev1.RenderOnCanvas props) w
   = [call_render (children props); call_new_Image image;
      call_new_Blob svg type; call_createObjectURL u; call_getContext;
      call_set_onload image; call_set_src image u]
   /\ object_urls w1 !! n = Some {| blob_content := svg; blob_type := type |}
   /\ fst (mount Rev1.RenderOnCanvas props w)
      = Ok {| prev_deps := [dep_vnode (children props)];
              pending_cleanup := Some cleanup |}
   /\ new_calls (fire_load image) w1
      = (if has_context2d w then
           clear_calls (lit 500) (lit 500)
           ++ [call_drawImage image (lit 0) (lit 0); call_revokeObjectURL u]
         else [])
   /\ forall w' : World,
        new_calls (call cleanup) w'
        = (if has_context2d w then clear_calls (lit 500) (lit 500) else [])
          ++ [call_revokeObjectURL u]
        /\ object_urls (snd (call cleanup w')) !! n = None).
Proof.
  cbv zeta.
  assert (Hgone : forall (f : Canvas -> Canvas) (new : list Call) (w' : World),
            object_urls
              (drew f (revoked (ObjectURL (next_object_url w))
                         (object_urls w')) new w')
            !! next_object_url w = None).
  { intros f new w'. cbn [object_urls drew revoked]. apply lookup_delete_eq. }
  split.
  - split; [|split; [|split; [|split]]].
    + apply new_calls_mount_Rev2.
    + unfold mounted. rewrite Rev2_mount_run.
      cbn [snd object_urls loading]. apply lookup_insert_eq.
    + by rewrite Rev2_mount_run.
    + apply load_calls_Rev2.
    + intros w'. split.
      * rewrite <- (truthy_context_of w).
        apply (cleanup_calls (context_of w) _ _ _ w').
      * cbn [call]. rewrite Rev2_cleanup_any. cbn [snd]. apply Hgone.
  - split; [|split; [|split; [|split]]].
    + apply new_calls_mount_Rev1.
    + unfold mounted. rewrite Rev1_mount_run.
      cbn [snd object_urls loading]. apply lookup_insert_eq.
    + by rewrite Rev1_mount_run.
    + apply load_calls_Rev1.
    + intros w'. split.
      * rewrite <- (truthy_context_of w).
        apply (cleanup_calls (context_of w) (lit 0) (lit 0) _ w').
      * cbn [call]. rewrite Rev1_cleanup_any. cbn [snd]. apply Hgone.
Qed.

End ObjectUrls.

(** C5, as first stated, fails when [getContext] returns [null]: the text
    [hi] is rendered, the image loads, and the [onload] handler of either
    object-URL revision makes no call, so that the object URL is still in
    the store after the [load] event; it stays there until the cleanup. *)
Lemma load_without_context_does_not_revoke :
  let type := js "image/svg+xml;charset=utf-8" in
  let w1 := mounted Rev1.RenderOnCanvas hi_props (empty_world false) in
  let w2 := mounted Rev2.RenderOnCanvas hi_props (empty_world false) in
  (new_calls (fire_load 0) w1 = []
   /\ object_urls (snd (fire_load 0 w1)) !! 0%nat
      = Some {| blob_content := Rev1.svgMarkup (js "hi");
                blob_type := type |})
  /\ (new_calls (fire_load 0) w2 = []
      /\ object_urls (snd (fire_load 0 w2)) !! 0%nat
         = Some {| blob_content := Rev2.svgMarkup (js "hi") 150%Z 150%Z;
                   blob_type := type |}).
Proof. vm_compute. repeat split. Qed.

(** ** One load attempt, no error handler *)

Section LoadAttempts.
Context `{P : Platform}.


End LoadAttempts.

(** ** Dimensions *)

Section Dimensions.
Context `{P : Platform}.

(** The markup of revision 1 with its numerals spelled out. *)
Lemma svg_document_500 (h : jsstring) :
  Rev1.svgMarkup h
  = js "<svg:svg xmlns=" ++ dquote ++ js "http://www.w3.org/1999/xhtml"
    ++ dquote ++ js " xmlns:svg=" ++ dquote
    ++ js "http://www.w3.org/2000/svg" ++ dquote
    ++ js " height=" ++ dquote ++ js "500" ++ dquote
    ++ js " width=" ++ dquote ++ js "500" ++ dquote ++ js ">"
    ++ js "<svg:foreignObject height=" ++ dquote ++ js "500" ++ dquote
    ++ js " width=" ++ dquote ++ js "500" ++ dquote ++ js ">"
    ++ h
    ++ js "</svg:foreignObject>"
    ++ js "</svg:svg>".
Proof.
  unfold Rev1.svgMarkup, Rev1.namespaces, quoted.
  cbn [join]. rewrite <- ?app_assoc. reflexivity.
Qed.

(** C8: in the three revisions with [width] and [height] props an omitted
    prop is 150, and the width and height so obtained are the ones of the
    [svg:svg] element, of the [svg:foreignObject] element and of every
    rectangle cleared or filled, on [load] and on cleanup (the [js-base64]
    revision also puts them on the canvas element). The earliest revision
    ignores such props: its markup spells 500 for all four dimensions and
    its rectangles are 500 by 500. *)
Theorem dimensions_default_to_150_and_are_used_throughout
    (c : VNode) (wd ht : option number) (r : Rest) (w : World) :
  let props := mkProps c wd ht r in
  let width := default (lit 150) wd in
  let height := default (lit 150) ht in
  let image := length (images w) in
  let u := ObjectURL (next_object_url w) in
  let type := js "image/svg+xml;charset=utf-8" in
  let prefix := js "data:image/svg+xml;base64," in
  let svg := svg_document (render c) width height in
  let context := context_of w in
  (use_effect (Rev2.RenderOnCanvas (mkProps c None None r))
   = Rev2.effect c (lit 150) (lit 150)
   /\ use_effect (Rev3.RenderOnCanvas (mkProps c None None r))
      = Rev3.effect c (lit 150) (lit 150)
   /\ use_effect (Rev4.RenderOnCanvas (mkProps c None None r))
      = Rev4.effect c (lit 150) (lit 150)
   /\ returned (Rev4.RenderOnCanvas (mkProps c None None r))
      = {| el_width := Some (lit 150); el_height := Some (lit 150);
           el_rest := Some r |})
  /\ (new_calls (mount Rev2.RenderOnCanvas props) w
      = [call_render c; call_new_Image image; call_new_Blob svg type;
         call_createObjectURL u; call_getContext; call_set_onload image;
         call_set_src image u]
      /\ new_calls (fire_load image) (mounted Rev2.RenderOnCanvas props w)
         = (if has_context2d w then
              clear_calls width height
              ++ [call_drawImage image (lit 0) (lit 0);
                  call_revokeObjectURL u]
            else [])
      /\ fst (mount Rev2.RenderOnCanvas props w)
         = Ok (instance_for c (Rev2_cleanup context width height u))
      /\ forall w' : World,
           new_calls (call (Rev2_cleanup context width height u)) w'
           = (if has_context2d w then clear_calls width height else [])
             ++ [call_revokeObjectURL u])
  /\ (new_calls (mount Rev3.RenderOnCanvas props) w
      = [call_render c; call_new_Image image; call_btoa svg]
        ++ match btoa svg with
           | Ok encoded =>
               [call_getContext; call_set_onload image;
                call_set_src image (DataURL (prefix ++ encoded))]
           | Throw _ => []
           end
      /\ new_calls (fire_load image) (mounted Rev3.RenderOnCanvas props w)
         = (if has_context2d w && latin1 svg then
              clear_calls width height
              ++ [call_drawImage image (lit 0) (lit 0)]
            else [])
      /\ forall w' : World,
           new_calls (call (Rev3_cleanup context width height)) w'
           = (if has_context2d w then clear_calls width height else []))
  /\ (new_calls (mount Rev4.RenderOnCanvas props) w
      = [call_render c; call_new_Image image; call_Base64_encode svg;
         call_set_src image
           (DataURL (prefix ++ base64_of_bytes (utob svg)));
         call_getContext; call_set_onload image]
      /\ new_calls (fire_load image) (mounted Rev4.RenderOnCanvas props w)
         = (if has_context2d w then
              clear_calls width height
              ++ [call_drawImage image (lit 0) (lit 0)]
            else [])
      /\ fst (mount Rev4.RenderOnCanvas props w)
         = Ok (instance_for c (Rev4_cleanup context width height))
      /\ (forall w' : World,
            new_calls (call (Rev4_cleanup context width height)) w'
            = (if has_context2d w then clear_calls width height else []))
      /\ canvasRef (mounted Rev4.RenderOnCanvas props w)
         = Some (fresh_canvas (Some width) (Some height) (Some r)))
  /\ (use_effect (Rev1.RenderOnCanvas props) = Rev1.effect c
      /\ new_calls (mount Rev1.RenderOnCanvas props) w
         = [call_render c; call_new_Image image;
            call_new_Blob (Rev1.svgMarkup (render c)) type;
            call_createObjectURL u; call_getContext; call_set_onload image;
            call_set_src image u]
      /\ Rev1.svgMarkup (render c)
         = js "<svg:svg xmlns=" ++ dquote
           ++ js "http://www.w3.org/1999/xhtml" ++ dquote
           ++ js " xmlns:svg=" ++ dquote
           ++ js "http://www.w3.org/2000/svg" ++ dquote
           ++ js " height=" ++ dquote ++ js "500" ++ dquote
           ++ js " width=" ++ dquote ++ js "500" ++ dquote ++ js ">"
           ++ js "<svg:foreignObject height=" ++ dquote ++ js "500"
           ++ dquote ++ js " width=" ++ dquote ++ js "500" ++ dquote
           ++ js ">" ++ render c ++ js "</svg:foreignObject>"
           ++ js "</svg:svg>"
      /\ new_calls (fire_load image) (mounted Rev1.RenderOnCanvas props w)
         = (if has_context2d w then
              clear_calls (lit 500) (lit 500)
              ++ [call_drawImage image (lit 0) (lit 0);
                  call_revokeObjectURL u]
            else [])
      /\ forall w' : World,
           new_calls (call (Rev1_cleanup context u)) w'
           = (if has_context2d w then clear_calls (lit 500) (lit 500)
              else [])
             ++ [call_revokeObjectURL u]).
Proof.
  cbv zeta.
  assert (Hclean : forall w',
    new_calls (call (Rev1_cleanup (context_of w) (ObjectURL (next_object_url w)))) w'
    = (if has_context2d w then clear_calls (lit 500) (lit 500) else [])
      ++ [call_revokeObjectURL (ObjectURL (next_object_url w))]
    /\ new_calls (call (Rev2_cleanup (context_of w) (default (lit 150) wd)
                          (default (lit 150) ht)
                          (ObjectURL (next_object_url w)))) w'
       = (if has_context2d w
          then clear_calls (default (lit 150) wd) (default (lit 150) ht)
          else [])
         ++ [call_revokeObjectURL (ObjectURL (next_object_url w))]
    /\ new_calls (call (Rev3_cleanup (context_of w) (default (lit 150) wd)
                          (default (lit 150) ht))) w'
       = (if has_context2d w
          then clear_calls (default (lit 150) wd) (default (lit 150) ht)
          else [])
    /\ new_calls (call (Rev4_cleanup (context_of w) (default (lit 150) wd)
                          (default (lit 150) ht))) w'
       = (if has_context2d w
          then clear_calls (default (lit 150) wd) (default (lit 150) ht)
          else [])).
  { intros w'. rewrite <- (truthy_context_of w). apply cleanup_calls. }
  rewrite <- svg_document_Rev2, <- svg_document_500.
  split; [|split; [|split; [|split]]].
  - done.
  - split; [|split; [|split]].
    + apply (new_calls_mount_Rev2 (mkProps c wd ht r)).
    + apply (load_calls_Rev2 (mkProps c wd ht r)).
    + by rewrite Rev2_mount_run.
    + intros w'. apply Hclean.
  - split; [|split].
    + rewrite svg_document_Rev2, <- svg_document_Rev3.
      apply (new_calls_mount_Rev3 (mkProps c wd ht r)).
    + rewrite svg_document_Rev2, <- svg_document_Rev3.
      apply (load_calls_Rev3 (mkProps c wd ht r)).
    + intros w'. apply Hclean.
  - split; [|split; [|split; [|split]]].
    + rewrite svg_document_Rev2, <- svg_document_Rev4.
      apply (new_calls_mount_Rev4 (mkProps c wd ht r)).
    + apply (load_calls_Rev4 (mkProps c wd ht r)).
    + by rewrite Rev4_mount_run.
    + intros w'. apply Hclean.
    + unfold mounted. by rewrite Rev4_mount_run.
  - split; [|split; [|split; [|split]]].
    + done.
    + apply (new_calls_mount_Rev1 (mkProps c wd ht r)).
    + done.
    + apply (load_calls_Rev1 (mkProps c wd ht r)).
    + intros w'. apply Hclean.
Qed.

End Dimensions.

(** ** The guard on the 2D context *)

Section ContextGuard.
Context `{P : Platform}.

Lemma pixels_drew (f : Canvas -> Canvas) (urls : gmap nat Blob)
    (new : list Call) (w : World) :
  pixels (drew f urls new w) = (fun c => bitmap (f c)) <$> canvasRef w.
Proof. unfold pixels, drew. cbn. by destruct (canvasRef w). Qed.

Lemma pixels_cleared (width height : number) (more : list Paint)
    (urls : gmap nat Blob) (new : list Call) (w : World) :
  pixels (drew (cleared width height more) urls new w)
  = (fun b => b ++ clear_paint width height ++ more) <$> pixels w.
Proof. rewrite pixels_drew. unfold pixels. by destruct (canvasRef w). Qed.

(** The effect itself never paints. *)
Lemma mount_does_not_paint (props : Props) (w : World) :
  forallb (fun c => negb (is_canvas_call c))
    (new_calls (mount Rev1.RenderOnCanvas props) w) = true
  /\ forallb (fun c => negb (is_canvas_call c))
       (new_calls (mount Rev2.RenderOnCanvas props) w) = true
  /\ forallb (fun c => negb (is_canvas_call c))
       (new_calls (mount Rev3.RenderOnCanvas props) w) = true
  /\ forallb (fun c => negb (is_canvas_call c))
       (new_calls (mount Rev4.RenderOnCanvas props) w) = true.
Proof.
  rewrite new_calls_mount_Rev1, new_calls_mount_Rev2, new_calls_mount_Rev3,
    new_calls_mount_Rev4.
  destruct (btoa _); done.
Qed.

(** C10: in every revision each function that touches the canvas tests the
    2D context first. With a [null] context, [setCanvasBgColor],
    [clearCanvas], the [onload] handler and the cleanup function return
    normally and leave the canvas as it is (the cleanup of the object-URL
    revisions still revokes the URL), and the effect itself makes no canvas
    call. With a context, [drawImage] comes right after [clearRect] on
    (0, 0, width, height) and a white [fillRect] on the same rectangle, and
    the cleanup ends with the canvas cleared and filled white. *)
Theorem canvas_calls_are_guarded_by_context
    (props : Props) (width height : number) (image : nat) (u : url)
    (color : jsstring) (w : World) :
  let size := lit 500 in
  let none := {| Rev4.context := None; Rev4.width := width;
                 Rev4.height := height |} in
  let white_rectangle (width height : number) (more : list Paint)
      (before : list Paint) :=
    before
    ++ [Cleared (lit 0) (lit 0) width height;
        Filled (js "white") (lit 0) (lit 0) width height]
    ++ more in
  let drawn := [Drawn image (lit 0) (lit 0)] in
  let draw_calls (width height : number) :=
    [call_clearRect (lit 0) (lit 0) width height;
     call_set_fillStyle (js "white");
     call_fillRect (lit 0) (lit 0) width height;
     call_drawImage image (lit 0) (lit 0)] in
  let clear_calls (width height : number) :=
    [call_clearRect (lit 0) (lit 0) width height;
     call_set_fillStyle (js "white");
     call_fillRect (lit 0) (lit 0) width height] in
  (Rev1.setCanvasBgColor None color w = (Ok tt, w)
   /\ Rev1.clearCanvas None w = (Ok tt, w)
   /\ Rev1.onload None image u w = (Ok tt, w)
   /\ fst (Rev1.cleanup None u w) = Ok tt
   /\ canvasRef (snd (Rev1.cleanup None u w)) = canvasRef w
   /\ new_calls (Rev1.cleanup None u) w = [call_revokeObjectURL u])
  /\ (Rev2.setCanvasBgColor None width height color w = (Ok tt, w)
      /\ Rev2.clearCanvas None width height w = (Ok tt, w)
      /\ Rev2.onload None width height image u w = (Ok tt, w)
      /\ fst (Rev2.cleanup None width height u w) = Ok tt
      /\ canvasRef (snd (Rev2.cleanup None width height u w)) = canvasRef w
      /\ new_calls (Rev2.cleanup None width height u) w
         = [call_revokeObjectURL u])
  /\ (Rev3.setCanvasBgColor None width height color w = (Ok tt, w)
      /\ Rev3.clearCanvas None width height w = (Ok tt, w)
      /\ Rev3.onload None width height image w = (Ok tt, w)
      /\ Rev3.cleanup None width height w = (Ok tt, w))
  /\ (Rev4.setCanvasBgColor none color w = (Ok tt, w)
      /\ Rev4.clearCanvas none w = (Ok tt, w)
      /\ Rev4.onload None width height image w = (Ok tt, w)
      /\ Rev4.cleanup None width height w = (Ok tt, w))
  /\ (forallb (fun c => negb (is_canvas_call c))
        (new_calls (mount Rev1.RenderOnCanvas props) w) = true
      /\ forallb (fun c => negb (is_canvas_call c))
           (new_calls (mount Rev2.RenderOnCanvas props) w) = true
      /\ forallb (fun c => negb (is_canvas_call c))
           (new_calls (mount Rev3.RenderOnCanvas props) w) = true
      /\ forallb (fun c => negb (is_canvas_call c))
           (new_calls (mount Rev4.RenderOnCanvas props) w) = true)
  /\ (new_calls (Rev1.onload (Some context2d) image u) w
      = draw_calls size size ++ [call_revokeObjectURL u]
      /\ new_calls (Rev2.onload (Some context2d) width height image u) w
         = draw_calls width height ++ [call_revokeObjectURL u]
      /\ new_calls (Rev3.onload (Some context2d) width height image) w
         = draw_calls width height
      /\ new_calls (Rev4.onload (Some context2d) width height image) w
         = draw_calls width height)
  /\ (pixels (snd (Rev1.onload (Some context2d) image u w))
      = white_rectangle size size drawn <$> pixels w
      /\ pixels (snd (Rev2.onload (Some context2d) width height image u w))
         = white_rectangle width height drawn <$> pixels w
      /\ pixels (snd (Rev3.onload (Some context2d) width height image w))
         = white_rectangle width height drawn <$> pixels w
      /\ pixels (snd (Rev4.onload (Some context2d) width height image w))
         = white_rectangle width height drawn <$> pixels w)
  /\ (new_calls (Rev1.cleanup (Some context2d) u) w
      = clear_calls size size ++ [call_revokeObjectURL u]
      /\ new_calls (Rev2.cleanup (Some context2d) width height u) w
         = clear_calls width height ++ [call_revokeObjectURL u]
      /\ new_calls (Rev3.cleanup (Some context2d) width height) w
         = clear_calls width height
      /\ new_calls (Rev4.cleanup (Some context2d) width height) w
         = clear_calls width height)
  /\ (pixels (snd (Rev1.cleanup (Some context2d) u w))
      = white_rectangle size size [] <$> pixels w
      /\ pixels (snd (Rev2.cleanup (Some context2d) width height u w))
         = white_rectangle width height [] <$> pixels w
      /\ pixels (snd (Rev3.cleanup (Some context2d) width height w))
         = white_rectangle width height [] <$> pixels w
      /\ pixels (snd (Rev4.cleanup (Some context2d) width height w))
         = white_rectangle width height [] <$> pixels w).
Proof.
  cbv zeta.
  split; [|split; [|split; [|split; [|split; [|split; [|split; [|split]]]]]]].
  - rewrite Rev1_cleanup_null. unfold new_calls.
    rewrite Rev1_cleanup_null. cbn [fst snd drew canvasRef calls].
    rewrite drop_app_length. repeat split; try done.
    by destruct (canvasRef w).
  - rewrite Rev2_cleanup_null. unfold new_calls.
    rewrite Rev2_cleanup_null. cbn [fst snd drew canvasRef calls].
    rewrite drop_app_length. repeat split; try done.
    by destruct (canvasRef w).
  - done.
  - done.
  - apply mount_does_not_paint.
  - unfold new_calls.
    rewrite Rev1_onload_run, Rev2_onload_run, Rev3_onload_run,
      Rev4_onload_run.
    cbn [snd drew calls]. rewrite !drop_app_length. done.
  - rewrite Rev1_onload_run, Rev2_onload_run, Rev3_onload_run,
      Rev4_onload_run.
    cbn [snd]. rewrite !pixels_cleared. done.
  - unfold new_calls.
    rewrite Rev1_cleanup_run, Rev2_cleanup_run, Rev3_cleanup_run,
      Rev4_cleanup_run.
    cbn [snd drew calls]. rewrite !drop_app_length. done.
  - rewrite Rev1_cleanup_run, Rev2_cleanup_run, Rev3_cleanup_run,
      Rev4_cleanup_run.
    cbn [snd]. rewrite !pixels_cleared. done.
Qed.

End ContextGuard.

(** ** Renders that leave the children alone *)

Section SameChildren.
Context `{P : Platform}.

Lemma update_same_children (component : Props -> Rendered) (c : VNode)
    (cleanup : Closure) (props' : Props) (w : World) :
  use_effect_deps (component props') = [dep_vnode c] ->
  update component (instance_for c cleanup) props' w
  = (Ok (instance_for c cleanup),
     snd (set_canvas (patch_canvas (returned (component props'))) w)).
Proof.
  intros Hdeps. unfold update, instance_for. cbn [prev_deps pending_cleanup].
  rewrite Hdeps. cbn [argsChanged same_dep].
  rewrite bool_decide_eq_true_2 by done. reflexivity.
Qed.

Lemma pixels_patched (el : CanvasElement) (w : World) :
  pixels (snd (set_canvas (patch_canvas el) w))
  = (fun cv =>
       if same_prop (width_attr cv) (el_width el)
          && same_prop (height_attr cv) (el_height el)
       then bitmap cv else [])
    <$> canvasRef w.
Proof.
  unfold pixels, set_canvas, patch_canvas. cbn.
  destruct (canvasRef w) as [cv|]; [|done]. cbn.
  by destruct (_ && _).
Qed.

(** The canvas attributes after the first render and a [load] event. *)
Lemma canvas_after_load (props : Props) (w : World) :
  let image := length (images w) in
  let width := default (lit 150) (width props) in
  let height := default (lit 150) (height props) in
  let attrs (component : Props -> Rendered) :=
    (fun cv => (width_attr cv, height_attr cv))
    <$> canvasRef (snd (fire_load image (mounted component props w))) in
  attrs Rev1.RenderOnCanvas = Some (None, None)
  /\ attrs Rev2.RenderOnCanvas = Some (None, None)
  /\ attrs Rev3.RenderOnCanvas = Some (None, None)
  /\ attrs Rev4.RenderOnCanvas = Some (Some width, Some height).
Proof.
  cbv beta zeta.
  rewrite Rev1_load_after_mount, Rev2_load_after_mount,
    Rev3_load_after_mount, Rev4_load_after_mount.
  unfold mounted.
  rewrite Rev1_mount_run, Rev2_mount_run, Rev3_mount_run, Rev4_mount_run.
  destruct (has_context2d w), (btoa _), (latin1 _); repeat split; reflexivity.
Qed.

(** C9 (as amended): the dependency list of the effect is [children] alone
    in every revision. A render with other width, height or remaining props
    and the same children returns the same hook state, makes no call and
    leaves the images and the object URLs as they are: the pipeline does not
    run again. After a first render and the [load] event of its image, such
    a render leaves the pixels of the canvas as they are in the two
    object-URL revisions and in the [btoa] revision; in the [js-base64]
    revision, which puts width and height on the canvas element, it leaves
    them as they are when the new width and height are strictly equal to
    the old ones, and otherwise the canvas is reset to blank and nothing is
    drawn again. *)
Theorem rerender_with_same_children_does_not_rerun
    (c : VNode) (wd ht wd' ht' : option number) (r r' : Rest)
    (cleanup : Closure) (w0 w : World) :
  let props := mkProps c wd ht r in
  let props' := mkProps c wd' ht' r' in
  let inst := instance_for c cleanup in
  let width := default (lit 150) wd in
  let height := default (lit 150) ht in
  let width' := default (lit 150) wd' in
  let height' := default (lit 150) ht' in
  let image := length (images w0) in
  let drawn (component : Props -> Rendered) :=
    snd (fire_load image (mounted component props w0)) in
  let no_rerun (component : Props -> Rendered) :=
    fst (update component inst props' w) = Ok inst
    /\ new_calls (update component inst props') w = []
    /\ images (snd (update component inst props' w)) = images w
    /\ object_urls (snd (update component inst props' w)) = object_urls w in
  (use_effect_deps (Rev1.RenderOnCanvas props') = [dep_vnode c]
   /\ use_effect_deps (Rev2.RenderOnCanvas props') = [dep_vnode c]
   /\ use_effect_deps (Rev3.RenderOnCanvas props') = [dep_vnode c]
   /\ use_effect_deps (Rev4.RenderOnCanvas props') = [dep_vnode c])
  /\ (no_rerun Rev1.RenderOnCanvas /\ no_rerun Rev2.RenderOnCanvas
      /\ no_rerun Rev3.RenderOnCanvas /\ no_rerun Rev4.RenderOnCanvas)
  /\ pixels (snd (update Rev1.RenderOnCanvas inst props'
                    (drawn Rev1.RenderOnCanvas)))
     = pixels (drawn Rev1.RenderOnCanvas)
  /\ pixels (snd (update Rev2.RenderOnCanvas inst props'
                    (drawn Rev2.RenderOnCanvas)))
     = pixels (drawn Rev2.RenderOnCanvas)
  /\ pixels (snd (update Rev3.RenderOnCanvas inst props'
                    (drawn Rev3.RenderOnCanvas)))
     = pixels (drawn Rev3.RenderOnCanvas)
  /\ pixels (snd (update Rev4.RenderOnCanvas inst props'
                    (drawn Rev4.RenderOnCanvas)))
     = if strict_equal width width' && strict_equal height height'
       then pixels (drawn Rev4.RenderOnCanvas)
       else Some [].
Proof.
  cbv beta zeta.
  assert (Hno : forall component : Props -> Rendered,
    use_effect_deps (component (mkProps c wd' ht' r')) = [dep_vnode c] ->
    fst (update component (instance_for c cleanup) (mkProps c wd' ht' r') w)
    = Ok (instance_for c cleanup)
    /\ new_calls (update component (instance_for c cleanup)
                    (mkProps c wd' ht' r')) w = []
    /\ images (snd (update component (instance_for c cleanup)
                      (mkProps c wd' ht' r') w)) = images w
    /\ object_urls (snd (update component (instance_for c cleanup)
                           (mkProps c wd' ht' r') w)) = object_urls w).
  { intros component Hdeps. unfold new_calls.
    rewrite (update_same_children _ _ _ _ _ Hdeps).
    cbn [fst snd set_canvas calls images object_urls].
    rewrite drop_all. repeat split; reflexivity. }
  pose proof (canvas_after_load (mkProps c wd ht r) w0) as Hattrs.
  cbv beta zeta in Hattrs. destruct Hattrs as (A1 & A2 & A3 & A4).
  split; [repeat split; reflexivity|].
  split; [repeat split; apply Hno; reflexivity|].
  rewrite !update_same_children by reflexivity. cbn [snd].
  rewrite !pixels_patched. unfold pixels.
  cbn [returned Rev1.RenderOnCanvas
    Rev2.RenderOnCanvas Rev3.RenderOnCanvas Rev4.RenderOnCanvas el_width
    el_height from_option id].
  destruct (canvasRef (snd (fire_load _ (mounted Rev1.RenderOnCanvas _ _))))
    as [c1|]; [|discriminate A1].
  destruct (canvasRef (snd (fire_load _ (mounted Rev2.RenderOnCanvas _ _))))
    as [c2|]; [|discriminate A2].
  destruct (canvasRef (snd (fire_load _ (mounted Rev3.RenderOnCanvas _ _))))
    as [c3|]; [|discriminate A3].
  destruct (canvasRef (snd (fire_load _ (mounted Rev4.RenderOnCanvas _ _))))
    as [c4|]; [|discriminate A4].
  cbn [fmap option_fmap option_map] in *.
  injection A1 as E1 F1. injection A2 as E2 F2. injection A3 as E3 F3.
  injection A4 as E4 F4. rewrite E1, F1, E2, F2, E3, F3, E4, F4.
  cbn [same_prop andb].
  repeat split; try reflexivity.
  destruct (_ && _); reflexivity.
Qed.

End SameChildren.

(** C9, as first stated, fails in the [js-base64] revision: the text [hi]
    is rendered and drawn, then rendered again as the same object with a
    width of 200. The effect does not run again, and the canvas, which had
    the white rectangle and the image on it, is blank. *)
Lemma new_width_resets_canvas_without_redraw :
  let w1 := mounted Rev4.RenderOnCanvas hi_props (empty_world true) in
  let w2 := snd (fire_load 0 w1) in
  let inst :=
    instance_for (children hi_props)
      (@Rev4_cleanup integer_platform (Some context2d) 150%Z 150%Z) in
  fst (mount Rev4.RenderOnCanvas hi_props (empty_world true)) = Ok inst
  /\ children hi_props_wider = children hi_props
  /\ pixels w2
     = Some [@Cleared integer_platform 0%Z 0%Z 150%Z 150%Z;
             @Filled integer_platform (js "white") 0%Z 0%Z 150%Z 150%Z;
             @Drawn integer_platform 0 0%Z 0%Z]
  /\ new_calls (update Rev4.RenderOnCanvas inst hi_props_wider) w2 = []
  /\ pixels (snd (update Rev4.RenderOnCanvas inst hi_props_wider w2))
     = Some [].
Proof. vm_compute. repeat split. Qed.

(** ** The bootstrap *)

Section Bootstrap.

(** The calls of [callPreact] when its three imports resolve. *)
Lemma callPreact_renders_app (env : Main.Env) :
  Main.rejects env Main.react = None ->
  Main.rejects env Main.app = None ->
  Main.rejects env Main.index_css = None ->
  snd (Main.callPreact env [])
  = [Main.call_import Main.react; Main.call_import Main.app;
     Main.call_import Main.index_css; Main.call_getElementById (js "app");
     Main.call_render Main.App (js "app")].
Proof.
  intros H1 H2 H3. unfold Main.callPreact, Main.bind, Main.import.
  rewrite H1, H2, H3. reflexivity.
Qed.

(** Whatever its imports do, [callPreact] makes an initial part of those
    calls: it never imports the devtools and never renders the fallback. *)
Lemma callPreact_calls_prefix (env : Main.Env) :
  exists n : nat,
    snd (Main.callPreact env [])
    = take n
        [Main.call_import Main.react; Main.call_import Main.app;
         Main.call_import Main.index_css;
         Main.call_getElementById (js "app");
         Main.call_render Main.App (js "app")].
Proof.
  unfold Main.callPreact, Main.bind, Main.import.
  destruct (Main.rejects env Main.react); [by exists 1%nat|].
  destruct (Main.rejects env Main.app); [by exists 2%nat|].
  destruct (Main.rejects env Main.index_css); [by exists 3%nat|].
  by exists 5%nat.
Qed.

(** C7 (as amended): in dev mode the first call is the import of the
    devtools. When it resolves, the bootstrap goes on with [callPreact],
    which imports [react], the app and the style sheet and, when these
    resolve, renders the app into the element with id [app]. When it
    rejects, [callPreact] is not called and the app is not rendered: the
    bootstrap imports [react] and, when that import resolves, renders into
    the element with id [app] the fallback holding the message of the
    caught error; when that import rejects too, it renders nothing. In
    production mode the bootstrap is [callPreact] alone: no import of the
    devtools, no fallback. *)
Theorem bootstrap_renders_app_or_error_fallback
    (prod : bool) (others : Main.Specifier -> option jsstring)
    (message : jsstring) :
  let devtools (outcome : option jsstring) (s : Main.Specifier) :=
    match s with
    | Main.preact_devtools => outcome
    | _ => others s
    end in
  let dev_ok :=
    {| Main.DEV := true; Main.PROD := prod;
       Main.rejects := devtools None |} in
  let dev_failing :=
    {| Main.DEV := true; Main.PROD := prod;
       Main.rejects := devtools (Some message) |} in
  let production (rejects : Main.Specifier -> option jsstring) :=
    {| Main.DEV := false; Main.PROD := true; Main.rejects := rejects |} in
  let all_resolve (s : Main.Specifier) : option jsstring := None in
  let app_calls :=
    [Main.call_import Main.react; Main.call_import Main.app;
     Main.call_import Main.index_css; Main.call_getElementById (js "app");
     Main.call_render Main.App (js "app")] in
  Main.trace dev_ok
  = Main.call_import Main.preact_devtools :: snd (Main.callPreact dev_ok [])
  /\ Main.trace {| Main.DEV := true; Main.PROD := prod;
                   Main.rejects := all_resolve |}
     = Main.call_import Main.preact_devtools :: app_calls
  /\ Main.trace dev_failing
     = [Main.call_import Main.preact_devtools; Main.call_import Main.react]
       ++ match others Main.react with
          | None =>
              [Main.call_getElementById (js "app");
               Main.call_render (Main.ErrorFallback message) (js "app")]
          | Some _ => []
          end
  /\ (forall container : jsstring,
        ~ In (Main.call_render Main.App container) (Main.trace dev_failing))
  /\ (forall rejects : Main.Specifier -> option jsstring,
        Main.trace (production rejects)
        = snd (Main.callPreact (production rejects) [])
        /\ ~ In (Main.call_import Main.preact_devtools)
               (Main.trace (production rejects))
        /\ forall (m container : jsstring),
             ~ In (Main.call_render (Main.ErrorFallback m) container)
                  (Main.trace (production rejects)))
  /\ Main.trace (production all_resolve) = app_calls.
Proof.
  cbv zeta.
  assert (Hfail :
    Main.trace {| Main.DEV := true; Main.PROD := prod;
                  Main.rejects := fun s =>
                    match s with
                    | Main.preact_devtools => Some message
                    | _ => others s
                    end |}
    = [Main.call_import Main.preact_devtools; Main.call_import Main.react]
      ++ match others Main.react with
         | None =>
             [Main.call_getElementById (js "app");
              Main.call_render (Main.ErrorFallback message) (js "app")]
         | Some _ => []
         end).
  { unfold Main.trace, Main.main, Main.not_awaited, Main.try_catch,
      Main.bind, Main.import. cbn.
    destruct (others Main.react); reflexivity. }
  split; [|split; [|split; [|split; [|split]]]].
  - unfold Main.trace, Main.main, Main.callPreact, Main.not_awaited,
      Main.try_catch, Main.bind, Main.import. cbn.
    destruct (others Main.react); [reflexivity|].
    destruct (others Main.app); [reflexivity|].
    destruct (others Main.index_css); reflexivity.
  - reflexivity.
  - exact Hfail.
  - intros container. rewrite Hfail.
    destruct (others Main.react); cbn; intros H;
      repeat (destruct H as [H|H]; [discriminate H|]); exact H.
  - intros rejects.
    assert (Htrace :
      Main.trace {| Main.DEV := false; Main.PROD := true;
                    Main.rejects := rejects |}
      = snd (Main.callPreact {| Main.DEV := false; Main.PROD := true;
                                Main.rejects := rejects |} [])) by reflexivity.
    split; [exact Htrace|]. rewrite Htrace.
    destruct (callPreact_calls_prefix
                {| Main.DEV := false; Main.PROD := true;
                   Main.rejects := rejects |}) as [n ->].
    split; [|intros m container]; intros H;
      apply list_elem_of_In, (subseteq_take n), list_elem_of_In in H;
      cbn in H; repeat (destruct H as [H|H]; [discriminate H|]); exact H.
  - reflexivity.
Qed.

End Bootstrap.

(** C7, as first stated, fails when the import of [react] in the [catch]
    block rejects as well: the devtools import rejects, the handler's own
    import rejects, and the bootstrap ends with neither the app nor the
    fallback rendered. *)
Lemma no_fallback_when_react_import_rejects_too :
  let env :=
    {| Main.DEV := true; Main.PROD := false;
       Main.rejects := fun s =>
         match s with
         | Main.preact_devtools => Some (js "no devtools")
         | Main.react => Some (js "no react")
         | _ => None
         end |} in
  Main.trace env
  = [Main.call_import Main.preact_devtools; Main.call_import Main.react]
  /\ List.filter is_render (Main.trace env) = [].
Proof. vm_compute. repeat split. Qed.

(** * Further properties *)

(** ** What a handler leaves alone *)

Section Frame.
Context `{P : Platform}.

Lemma lookup_revoked (u : url) (urls : gmap nat Blob) (id : nat) :
  (u <> ObjectURL id -> revoked u urls !! id = urls !! id)
  /\ (revoked u urls !! id = None \/ revoked u urls !! id = urls !! id).
Proof.
  destruct u as [k|s]; cbn [revoked]; [|by split; [|right]].
  rewrite lookup_delete. destruct (decide (k = id)) as [->|Hne].
  - split; [done|by left].
  - split; [done|by right].
Qed.

Lemma revokes_url (f : Closure) (u : url) (id : nat) :
  match f with
  | Rev1_onload _ _ u' | Rev1_cleanup _ u' | Rev2_onload _ _ _ _ u'
  | Rev2_cleanup _ _ _ u' => u' = u
  | _ => False
  end ->
  revokes f <> Some id -> u <> ObjectURL id.
Proof. destruct f; intros H Hne ->; subst; cbn in Hne; done. Qed.

Lemma call_returns (f : Closure) (w : World) :
  fst (call f w) = Ok tt
  /\ images (snd (call f w)) = images w
  /\ next_object_url (snd (call f w)) = next_object_url w
  /\ has_context2d (snd (call f w)) = has_context2d w.
Proof.
  destruct f as [ctx i u|ctx u|ctx wd ht i u|ctx wd ht u|ctx wd ht i
                 |ctx wd ht|ctx wd ht i|ctx wd ht]; cbn [call];
    rewrite ?Rev1_onload_any, ?Rev1_cleanup_any, ?Rev2_onload_any,
      ?Rev2_cleanup_any, ?Rev3_onload_any, ?Rev3_cleanup_any,
      ?Rev4_onload_any, ?Rev4_cleanup_any;
    destruct (truthy ctx); cbn [fst snd]; repeat split; reflexivity.
Qed.

Lemma call_object_urls (f : Closure) (w : World) (id : nat) :
  (revokes f <> Some id ->
   object_urls (snd (call f w)) !! id = object_urls w !! id)
  /\ (object_urls (snd (call f w)) !! id = None
      \/ object_urls (snd (call f w)) !! id = object_urls w !! id).
Proof.
  destruct f as [ctx i u|ctx u|ctx wd ht i u|ctx wd ht u|ctx wd ht i
                 |ctx wd ht|ctx wd ht i|ctx wd ht]; cbn [call].
  - rewrite Rev1_onload_any. destruct (truthy ctx); cbn [fst snd];
      [|by split; [|right]].
    split; [|apply lookup_revoked].
    intros Hne. apply lookup_revoked.
    by apply (revokes_url (Rev1_onload ctx i u)).
  - rewrite Rev1_cleanup_any. split; [|apply lookup_revoked].
    intros Hne. apply lookup_revoked.
    by apply (revokes_url (Rev1_cleanup ctx u)).
  - rewrite Rev2_onload_any. destruct (truthy ctx); cbn [fst snd];
      [|by split; [|right]].
    split; [|apply lookup_revoked].
    intros Hne. apply lookup_revoked.
    by apply (revokes_url (Rev2_onload ctx wd ht i u)).
  - rewrite Rev2_cleanup_any. split; [|apply lookup_revoked].
    intros Hne. apply lookup_revoked.
    by apply (revokes_url (Rev2_cleanup ctx wd ht u)).
  - rewrite Rev3_onload_any. destruct (truthy ctx); by split; [|right].
  - rewrite Rev3_cleanup_any. destruct (truthy ctx); by split; [|right].
  - rewrite Rev4_onload_any. destruct (truthy ctx); by split; [|right].
  - rewrite Rev4_cleanup_any. destruct (truthy ctx); by split; [|right].
Qed.

(** X2: whatever function value of the component runs (an [onload] handler
    or a cleanup function of any revision, with or without a context), it
    returns normally, leaves every image object, the URL counter and the
    availability of the context as they are, and leaves every entry of the
    object-URL store as it is, except the one entry for the URL it holds,
    which it may remove. *)
Theorem handlers_touch_only_canvas_and_own_url (f : Closure) (w : World) :
  fst (call f w) = Ok tt
  /\ images (snd (call f w)) = images w
  /\ next_object_url (snd (call f w)) = next_object_url w
  /\ has_context2d (snd (call f w)) = has_context2d w
  /\ forall id : nat,
       (revokes f <> Some id ->
        object_urls (snd (call f w)) !! id = object_urls w !! id)
       /\ (object_urls (snd (call f w)) !! id = None
           \/ object_urls (snd (call f w)) !! id = object_urls w !! id).
Proof.
  destruct (call_returns f w) as (Hok & Himages & Hnext & Hcontext).
  repeat split; try assumption; apply call_object_urls.
Qed.

End Frame.

(** ** The object-URL store over one mount and unmount *)

Section RoundTrip.
Context `{P : Platform}.

Lemma unmount_object_urls (c : VNode) (f : Closure) (w : World) :
  object_urls (snd (unmount (instance_for c f) w))
  = object_urls (snd (call f w)).
Proof.
  unfold unmount, bind, instance_for. cbn [pending_cleanup call_handler].
  destruct (call_returns f w) as (Hok & _).
  destruct (call f w) as [r w']. cbn in Hok. subst r. reflexivity.
Qed.

(** X3: in the two object-URL revisions, when the URL the next
    [createObjectURL] hands out is not in the store yet, mounting and then
    unmounting leaves the store of object URLs exactly as it was before the
    mount, whether or not the image loaded in between, and whatever the
    context. *)
Theorem object_url_store_restored_by_unmount (props : Props) (w : World)
    (fresh : object_urls w !! next_object_url w = None) :
  let c := children props in
  let width := default (lit 150) (width props) in
  let height := default (lit 150) (height props) in
  let image := length (images w) in
  let u := ObjectURL (next_object_url w) in
  let inst1 := instance_for c (Rev1_cleanup (context_of w) u) in
  let inst2 := instance_for c (Rev2_cleanup (context_of w) width height u) in
  let w1 := mounted Rev1.RenderOnCanvas props w in
  let w2 := mounted Rev2.RenderOnCanvas props w in
  (fst (mount Rev1.RenderOnCanvas props w) = Ok inst1
   /\ object_urls (snd (unmount inst1 w1)) = object_urls w
   /\ object_urls (snd (unmount inst1 (snd (fire_load image w1))))
      = object_urls w)
  /\ (fst (mount Rev2.RenderOnCanvas props w) = Ok inst2
      /\ object_urls (snd (unmount inst2 w2)) = object_urls w
      /\ object_urls (snd (unmount inst2 (snd (fire_load image w2))))
         = object_urls w).
Proof.
  cbv zeta. rewrite !unmount_object_urls. cbn [call].
  rewrite Rev1_load_after_mount, Rev2_load_after_mount.
  rewrite !Rev1_cleanup_any, !Rev2_cleanup_any.
  unfold mounted. rewrite Rev1_mount_run, Rev2_mount_run.
  destruct (has_context2d w);
    cbn [fst snd object_urls drew loading revoked with_canvas];
    rewrite ?delete_insert_eq, ?(delete_id _ _ fresh),
      ?(delete_insert_id _ _ _ fresh);
    repeat split; reflexivity.
Qed.

End RoundTrip.

Lemma object_url_store_restored_by_unmount_witness :
  object_urls (empty_world true) !! next_object_url (empty_world true) = None
  /\ object_urls
       (snd (unmount
               (instance_for (children hi_props)
                  (@Rev2_cleanup integer_platform
                     (context_of (empty_world true))
                     150%Z 150%Z (ObjectURL 0)))
               (mounted Rev2.RenderOnCanvas hi_props (empty_world true))))
     = object_urls (empty_world true).
Proof.
  split; [reflexivity|].
  exact (proj1 (proj2 (proj2
           (object_url_store_restored_by_unmount hi_props (empty_world true)
              eq_refl)))).
Defined.

(** ** A load event that arrives late *)

Section LateLoad.
Context `{P : Platform}.

Lemma effect_appends_images (c : VNode) (wd ht : number) (w : World) :
  (exists l, images (snd (Rev1.effect c w)) = images w ++ l)
  /\ (exists l, images (snd (Rev2.effect c wd ht w)) = images w ++ l)
  /\ (exists l, images (snd (Rev3.effect c wd ht w)) = images w ++ l)
  /\ (exists l, images (snd (Rev4.effect c wd ht w)) = images w ++ l).
Proof.
  destruct (canvasRef w) as [cv|] eqn:E.
  - rewrite (Rev1_effect_run _ _ _ E), (Rev2_effect_run _ _ _ _ _ E),
      (Rev3_effect_run _ _ _ _ _ E), (Rev4_effect_run _ _ _ _ _ E).
    destruct (btoa _); repeat split; eexists; reflexivity.
  - unfold Rev1.effect, Rev2.effect, Rev3.effect, Rev4.effect, bind,
      get_canvasRef.
    rewrite E. repeat split; exists []; by rewrite app_nil_r.
Qed.

(** A later render keeps every image object there is. *)
Lemma update_keeps_images (component : Props -> Rendered)
    (inst : Instance) (props' : Props) (w : World) (i : nat) (img : Image) :
  (forall w', exists l,
     images (snd (use_effect (component props') w')) = images w' ++ l) ->
  images w !! i = Some img ->
  images (snd (update component inst props' w)) !! i = Some img.
Proof.
  intros Heff Hi. unfold update, bind. cbn [set_canvas].
  destruct (argsChanged _ _); [|exact Hi].
  set (w0 := {| canvasRef := _ |}).
  assert (H0 : images w0 = images w) by reflexivity.
  assert (Hc : exists w1, call_handler (pending_cleanup inst) w0 = (Ok tt, w1)
                          /\ images w1 = images w0).
  { destruct (pending_cleanup inst) as [f|]; cbn [call_handler].
    - destruct (call_returns f w0) as (Hok & Him & _).
      destruct (call f w0) as [r w1]. cbn in Hok, Him. subst r. eauto.
    - by exists w0. }
  destruct Hc as (w1 & -> & H1).
  destruct (Heff w1) as [l Hl].
  destruct (use_effect (component props') w1) as [[cl|e] w2];
    unfold ret; cbn [snd] in *; rewrite Hl, H1, H0;
    by apply lookup_app_l_Some.
Qed.

Lemma fire_load_at (image : nat) (img : Image) (f : Closure) (w : World) :
  images w !! image = Some img -> onload img = Some f ->
  fire_load image w = call f w.
Proof. intros Hi Hf. unfold fire_load. rewrite Hi. cbn. by rewrite Hf. Qed.

(** X4: the cleanup function never detaches the [onload] handler of its
    image. After any later render, be it with other children (so that the
    cleanup has run and a new image is loading) or with another width or
    height, the [load] event of the first image still clears the rectangle
    of the first render and draws the first image over the canvas, when the
    context is not [null]. *)
Theorem late_load_still_draws_first_image
    (props props' : Props) (w : World) :
  let c := children props in
  let width := default (lit 150) (width props) in
  let height := default (lit 150) (height props) in
  let image := length (images w) in
  let u := ObjectURL (next_object_url w) in
  let later (component : Props -> Rendered) (cleanup : Closure) :=
    snd (update component (instance_for c cleanup) props'
           (mounted component props w)) in
  new_calls (fire_load image)
    (later Rev1.RenderOnCanvas (Rev1_cleanup (context_of w) u))
  = (if has_context2d w then
       clear_calls (lit 500) (lit 500)
       ++ [call_drawImage image (lit 0) (lit 0); call_revokeObjectURL u]
     else [])
  /\ new_calls (fire_load image)
       (later Rev2.RenderOnCanvas
          (Rev2_cleanup (context_of w) width height u))
     = (if has_context2d w then
          clear_calls width height
          ++ [call_drawImage image (lit 0) (lit 0); call_revokeObjectURL u]
        else [])
  /\ new_calls (fire_load image)
       (later Rev4.RenderOnCanvas (Rev4_cleanup (context_of w) width height))
     = (if has_context2d w then
          clear_calls width height ++ [call_drawImage image (lit 0) (lit 0)]
        else []).
Proof.
  cbv beta zeta.
  assert (Heff : forall props0 : Props,
    (forall w', exists l,
       images (snd (use_effect (Rev1.RenderOnCanvas props0) w'))
       = images w' ++ l)
    /\ (forall w', exists l,
          images (snd (use_effect (Rev2.RenderOnCanvas props0) w'))
          = images w' ++ l)
    /\ (forall w', exists l,
          images (snd (use_effect (Rev4.RenderOnCanvas props0) w'))
          = images w' ++ l)).
  { intros [c0 wd0 ht0 r0]. cbn [use_effect Rev1.RenderOnCanvas
      Rev2.RenderOnCanvas Rev4.RenderOnCanvas].
    repeat split; intros w';
      apply (effect_appends_images c0 (default (lit 150) wd0)
               (default (lit 150) ht0) w'). }
  destruct (Heff props') as (E1 & E2 & E4).
  split; [|split].
  - set (w2 := snd (update Rev1.RenderOnCanvas _ props' _)).
    assert (Hi : exists img, images w2 !! length (images w) = Some img
        /\ onload img = Some (Rev1_onload (context_of w) (length (images w))
                                (ObjectURL (next_object_url w)))).
    { eexists. split.
      - subst w2. apply (update_keeps_images _ _ _ _ _ _ E1).
        unfold mounted. rewrite Rev1_mount_run. cbn [snd].
        apply (lookup_new_image _ _ _ _ (with_canvas _ w)).
      - reflexivity. }
    destruct Hi as (img & Hi & Hf). unfold new_calls.
    rewrite (fire_load_at _ _ _ _ Hi Hf). cbn [call].
    rewrite Rev1_onload_any, truthy_context_of.
    destruct (has_context2d w); cbn [snd calls drew];
      rewrite ?drop_app_length, ?drop_all; reflexivity.
  - set (w2 := snd (update Rev2.RenderOnCanvas _ props' _)).
    assert (Hi : exists img, images w2 !! length (images w) = Some img
        /\ onload img
           = Some (Rev2_onload (context_of w)
                     (default (lit 150) (width props))
                     (default (lit 150) (height props))
                     (length (images w)) (ObjectURL (next_object_url w)))).
    { eexists. split.
      - subst w2. apply (update_keeps_images _ _ _ _ _ _ E2).
        unfold mounted. rewrite Rev2_mount_run. cbn [snd].
        apply (lookup_new_image _ _ _ _ (with_canvas _ w)).
      - reflexivity. }
    destruct Hi as (img & Hi & Hf). unfold new_calls.
    rewrite (fire_load_at _ _ _ _ Hi Hf). cbn [call].
    rewrite Rev2_onload_any, truthy_context_of.
    destruct (has_context2d w); cbn [snd calls drew];
      rewrite ?drop_app_length, ?drop_all; reflexivity.
  - set (w2 := snd (update Rev4.RenderOnCanvas _ props' _)).
    assert (Hi : exists img, images w2 !! length (images w) = Some img
        /\ onload img
           = Some (Rev4_onload (context_of w)
                     (default (lit 150) (width props))
                     (default (lit 150) (height props))
                     (length (images w)))).
    { eexists. split.
      - subst w2. apply (update_keeps_images _ _ _ _ _ _ E4).
        unfold mounted. rewrite Rev4_mount_run. cbn [snd].
        apply (lookup_new_image _ _ _ _ (with_canvas _ w)).
      - reflexivity. }
    destruct Hi as (img & Hi & Hf). unfold new_calls.
    rewrite (fire_load_at _ _ _ _ Hi Hf). cbn [call].
    rewrite Rev4_onload_any, truthy_context_of.
    destruct (has_context2d w); cbn [snd calls drew];
      rewrite ?drop_app_length, ?drop_all; reflexivity.
Qed.

End LateLoad.

(** ** The bootstrap in every environment *)

Section BootstrapAll.

Ltac all_environments env :=
  destruct env as [dev prod rejects];
  unfold resolves, Main.trace, Main.main, Main.callPreact, Main.not_awaited,
    Main.try_catch, Main.bind, Main.import, Main.getElementById,
    Main.render, Main.ret;
  cbn [Main.DEV Main.PROD Main.rejects];
  destruct dev, prod;
  destruct (rejects Main.preact_devtools) eqn:Edevtools;
  destruct (rejects Main.react), (rejects Main.app),
    (rejects Main.index_css);
  cbn [fst snd app Main.message].

(** X5: the app is rendered exactly when every import that comes before the
    render resolves: the devtools, [react], the app and the style sheet in
    dev mode; [react], the app and the style sheet in production mode. When
    neither mode is set the bootstrap does nothing. *)
Theorem app_rendered_iff_imports_resolve (env : Main.Env) :
  existsb is_render_of_app (Main.trace env)
  = (if Main.DEV env then
       resolves env Main.preact_devtools && resolves env Main.react
       && resolves env Main.app && resolves env Main.index_css
     else if Main.PROD env then
       resolves env Main.react && resolves env Main.app
       && resolves env Main.index_css
     else false)
  /\ Main.trace {| Main.DEV := false; Main.PROD := false;
                   Main.rejects := Main.rejects env |} = [].
Proof. all_environments env; split; reflexivity. Qed.

(** X6: in every environment the bootstrap renders at most once, as its last
    call and into the element with id [app]. The error fallback is rendered
    only in dev mode and only for a rejected import of the devtools, whose
    message it shows: [callPreact] is called without [await], so a rejected
    import of [react], of the app or of the style sheet inside it never
    reaches the [catch]. *)
Theorem bootstrap_renders_once_and_reports_only_devtools (env : Main.Env) :
  (length (List.filter is_render (Main.trace env)) <= 1)%nat
  /\ (forall (node : Main.Node) (container : jsstring),
        In (Main.call_render node container) (Main.trace env) ->
        container = js "app"
        /\ last (Main.trace env) = Some (Main.call_render node container))
  /\ (forall (message container : jsstring),
        In (Main.call_render (Main.ErrorFallback message) container)
          (Main.trace env) ->
        Main.DEV env = true
        /\ Main.rejects env Main.preact_devtools = Some message).
Proof.
  all_environments env; (split; [cbn; lia|]); split;
    intros ? ? H; cbn in H;
    repeat (destruct H as [H|H]; [try discriminate H|]);
    try (exfalso; exact H);
    try (injection H as <- <-; split; reflexivity).
Qed.

End BootstrapAll.

(** ** The two encoders on ASCII markup *)

Section Ascii.
Context `{P : Platform}.

(** X7: when the SVG markup is pure ASCII (every code unit below U+0080),
    the [btoa] revision does not throw and assigns to its image the very
    data URL the [js-base64] revision assigns: on such markup the two
    revisions differ only in the order of their calls. *)
Theorem data_url_revisions_agree_on_ascii (props : Props) (w : World)
    (ascii :
       forallb (fun c => c <? 128)
         (svg_document (render (children props))
            (default (lit 150) (width props))
            (default (lit 150) (height props))) = true) :
  let width := default (lit 150) (width props) in
  let height := default (lit 150) (height props) in
  let image := length (images w) in
  let encoded :=
    base64_of_bytes (svg_document (render (children props)) width height) in
  let data_url := DataURL (js "data:image/svg+xml;base64," ++ encoded) in
  fst (mount Rev3.RenderOnCanvas props w)
  = Ok (instance_for (children props)
          (Rev3_cleanup (context_of w) width height))
  /\ src_of (mounted Rev3.RenderOnCanvas props w) image = Some data_url
  /\ src_of (mounted Rev4.RenderOnCanvas props w) image = Some data_url.
Proof.
  cbv zeta. unfold mounted. rewrite Rev3_mount_run, Rev4_mount_run.
  rewrite svg_document_Rev3, svg_document_Rev4.
  unfold btoa. rewrite (ascii_latin1 _ ascii), (utob_ascii _ ascii).
  cbn [fst snd].
  rewrite !(src_of_new_image _ _ _ _ (with_canvas _ w)).
  repeat split; reflexivity.
Qed.

End Ascii.

Lemma data_url_revisions_agree_on_ascii_witness :
  forallb (fun c => c <? 128)
    (svg_document (render (children hi_props)) 150%Z 150%Z) = true
  /\ src_of (mounted Rev3.RenderOnCanvas hi_props (empty_world true)) 0
     = src_of (mounted Rev4.RenderOnCanvas hi_props (empty_world true)) 0.
Proof.
  split; [reflexivity|].
  destruct (data_url_revisions_agree_on_ascii hi_props (empty_world true)
              eq_refl) as (_ & H3 & H4).
  exact (eq_trans H3 (eq_sym H4)).
Defined.

(** ** Object URLs over any sequence of events *)

Section NoLeak.
Context `{P : Platform}.

Lemma Rev1_url_effect (props : Props) :
  url_effect (use_effect (Rev1.RenderOnCanvas props)).
Proof.
  destruct props as [c wd ht r]. intros w.
  cbn [use_effect Rev1.RenderOnCanvas].
  destruct (canvasRef w) as [cv|] eqn:E.
  - right. rewrite (Rev1_effect_run _ _ _ E).
    do 3 eexists. repeat split; reflexivity.
  - left. unfold Rev1.effect, bind, get_canvasRef. by rewrite E.
Qed.

Lemma Rev2_url_effect (props : Props) :
  url_effect (use_effect (Rev2.RenderOnCanvas props)).
Proof.
  destruct props as [c wd ht r]. intros w.
  cbn [use_effect Rev2.RenderOnCanvas].
  destruct (canvasRef w) as [cv|] eqn:E.
  - right. rewrite (Rev2_effect_run _ _ _ _ _ E).
    do 3 eexists. repeat split; reflexivity.
  - left. unfold Rev2.effect, bind, get_canvasRef. by rewrite E.
Qed.

(** A cleanup function of the object-URL revisions releases its URL,
    whatever the context. *)
Lemma cleanup_releases (f : Closure) (id : nat) (w : World) :
  is_cleanup f = true -> revokes f = Some id ->
  object_urls (snd (call f w)) !! id = None.
Proof.
  destruct f as [ctx i u|ctx u|ctx wd ht i u|ctx wd ht u|ctx wd ht i
                 |ctx wd ht|ctx wd ht i|ctx wd ht]; try discriminate;
    intros _; destruct u as [k|s]; try discriminate;
    intros [= <-]; cbn [call];
    rewrite ?Rev1_cleanup_any, ?Rev2_cleanup_any;
    cbn [snd drew object_urls revoked]; apply lookup_delete_eq.
Qed.

Lemma held_call_handler (base : nat) (inst : option Instance)
    (h : option Closure) (w : World) :
  held base (inst, w) -> held base (inst, snd (call_handler h w)).
Proof.
  destruct h as [f|]; [|done]. cbn [call_handler].
  intros (Hb & Hfresh & Hheld).
  destruct (call_returns f w) as (_ & _ & Hnext & _).
  unfold held. cbn [fst snd] in *. rewrite Hnext.
  split; [done|split].
  - intros id Hid.
    destruct (proj2 (call_object_urls f w id)) as [->| ->]; auto.
  - intros id Hid Hsome. apply Hheld; [done|].
    destruct (proj2 (call_object_urls f w id)) as [E|E];
      rewrite E in Hsome; [by destruct Hsome|done].
Qed.

(** After the pending cleanup has run, nothing handed out since [base] is
    in the store. *)
Lemma released_by_cleanup (base : nat) (i : Instance) (w : World) :
  held base (Some i, w) ->
  let w' := snd (call_handler (pending_cleanup i) w) in
  fst (call_handler (pending_cleanup i) w) = Ok tt
  /\ next_object_url w' = next_object_url w
  /\ forall id, (base <= id)%nat -> object_urls w' !! id = None.
Proof.
  intros (Hb & Hfresh & Hheld). cbn [fst snd] in *.
  destruct (pending_cleanup i) as [f|] eqn:Ef; cbn [call_handler].
  - destruct (call_returns f w) as (Hok & _ & Hnext & _).
    repeat split; [done..|].
    intros id Hid.
    destruct (object_urls (snd (call f w)) !! id) as [b|] eqn:E; [|done].
    destruct (proj2 (call_object_urls f w id)) as [E'|E'];
      [congruence|].
    destruct (Hheld id Hid) as (i' & f' & [= <-] & Hf' & Hc & Hr).
    { rewrite <- E', E. by eexists. }
    rewrite Ef in Hf'. injection Hf' as <-.
    by rewrite (cleanup_releases f id w Hc Hr) in E.
  - repeat split. intros id Hid.
    destruct (object_urls w !! id) as [b|] eqn:E; [|done].
    destruct (Hheld id Hid) as (i' & f' & [= <-] & Hf' & _);
      [by eexists|]. by rewrite Ef in Hf'.
Qed.

(** An effect run from a world with nothing handed out since [base] in the
    store. *)
Lemma held_after_effect (base : nat) (effect : M (option Closure))
    (deps : list Dep) (w : World) :
  url_effect effect ->
  (base <= next_object_url w)%nat ->
  (forall id, (next_object_url w <= id)%nat -> object_urls w !! id = None) ->
  (forall id, (base <= id)%nat -> object_urls w !! id = None) ->
  exists cleanup w',
    effect w = (Ok cleanup, w')
    /\ held base
         (Some {| prev_deps := deps; pending_cleanup := cleanup |}, w').
Proof.
  intros Heff Hb Hfresh Hnone.
  destruct (Heff w) as [E|(f & blob & w' & E & Hc & Hr & Hurls & Hnext)].
  - exists None, w. split; [done|]. unfold held. cbn [fst snd].
    repeat split; [done..|].
    intros id Hid Hsome. rewrite (Hnone id Hid) in Hsome. by destruct Hsome.
  - exists (Some f), w'. split; [done|]. unfold held. cbn [fst snd].
    rewrite Hurls, Hnext. split; [lia|split].
    + intros id Hid. rewrite lookup_insert_ne by lia. apply Hfresh. lia.
    + intros id Hid Hsome.
      destruct (decide (next_object_url w = id)) as [<-|Hne].
      * by exists {| prev_deps := deps; pending_cleanup := Some f |}, f.
      * rewrite lookup_insert_ne, (Hnone id Hid) in Hsome by done.
        by destruct Hsome.
Qed.

Lemma held_step (base : nat) (component : Props -> Rendered) (e : Event)
    (s : option Instance * World) :
  (forall props, url_effect (use_effect (component props))) ->
  held base s -> held base (step component e s).
Proof.
  intros Hcomp Hs. destruct s as [inst w]. destruct e as [props|k|k|].
  - cbn [step]. destruct inst as [i|].
    + unfold update, bind. cbn [set_canvas].
      set (w0 := {| canvasRef := _ |}).
      assert (H0 : held base (Some i, w0)) by exact Hs.
      destruct (argsChanged _ _); [|exact H0].
      destruct (released_by_cleanup base i w0 H0) as (Hok & Hnext & Hnone).
      destruct H0 as (Hb & Hfresh & _). cbn [fst snd] in *.
      destruct (call_handler (pending_cleanup i) w0) as [r w1].
      cbn [fst snd] in *. subst r.
      destruct (held_after_effect base (use_effect (component props))
                  (use_effect_deps (component props)) w1 (Hcomp props))
        as (cl & w2 & -> & H2).
      * by rewrite Hnext.
      * intros id Hid. apply Hnone. rewrite Hnext in Hid. lia.
      * exact Hnone.
      * exact H2.
    + unfold mount, bind, set_canvasRef.
      set (w0 := {| canvasRef := _ |}).
      destruct Hs as (Hb & Hfresh & Hheld). cbn [fst snd] in *.
      destruct (held_after_effect base (use_effect (component props))
                  (use_effect_deps (component props)) w0 (Hcomp props))
        as (cl & w2 & -> & H2); [done|exact Hfresh| |exact H2].
      intros id Hid.
      destruct (object_urls w !! id) as [b|] eqn:E; [|exact E].
      destruct (Hheld id Hid) as (i' & _ & [=] & _). by eexists.
  - cbn [step]. unfold fire_load. by apply held_call_handler.
  - cbn [step]. unfold fire_error. by apply held_call_handler.
  - cbn [step]. destruct inst as [i|].
    + destruct (released_by_cleanup base i w Hs) as (Hok & Hnext & Hnone).
      destruct Hs as (Hb & Hfresh & _). cbn [fst snd] in *.
      unfold unmount, bind, set_canvasRef.
      destruct (call_handler (pending_cleanup i) w) as [r w1].
      cbn [fst snd] in *. subst r. unfold held.
      cbn [fst snd next_object_url object_urls].
      rewrite Hnext. split; [done|split].
      * intros id Hid. apply Hnone. lia.
      * intros id Hid Hsome. rewrite (Hnone id Hid) in Hsome.
        by destruct Hsome.
    + exact Hs.
Qed.

Lemma held_run_events (base : nat) (component : Props -> Rendered)
    (events : list Event) (s : option Instance * World) :
  (forall props, url_effect (use_effect (component props))) ->
  held base s -> held base (run_events component events s).
Proof.
  intros Hcomp. revert s. unfold run_events.
  induction events as [|e events IH]; intros s Hs; [exact Hs|].
  cbn [fold_left]. apply IH. by apply held_step.
Qed.

Lemma live_since_spec (base : nat) (w : World) (id : nat) :
  id ∈ live_since base w
  <-> (base <= id)%nat /\ is_Some (object_urls w !! id).
Proof.
  unfold live_since. rewrite list_elem_of_In, filter_In, <- list_elem_of_In.
  rewrite Nat.leb_le, list_elem_of_fmap. split.
  - intros [([k b] & -> & Hkb%elem_of_map_to_list) Hid]. by split; [|eexists].
  - intros [Hid [b Hb]]. split; [|done].
    exists (id, b). split; [done|]. by apply elem_of_map_to_list.
Qed.

Lemma live_since_NoDup (base : nat) (w : World) : NoDup (live_since base w).
Proof.
  unfold live_since. apply NoDup_ListNoDup, List.NoDup_filter,
    NoDup_ListNoDup, NoDup_fst_map_to_list.
Qed.

Lemma held_live_since (base : nat) (s : option Instance * World) :
  held base s ->
  (length (live_since base (snd s)) <= 1)%nat
  /\ (fst s = None -> live_since base (snd s) = [])
  /\ forall id, id ∈ live_since base (snd s) ->
       exists i f, fst s = Some i /\ pending_cleanup i = Some f
                   /\ is_cleanup f = true /\ revokes f = Some id.
Proof.
  intros (_ & _ & Hheld).
  assert (H : forall id, id ∈ live_since base (snd s) ->
            exists i f, fst s = Some i /\ pending_cleanup i = Some f
                        /\ is_cleanup f = true /\ revokes f = Some id).
  { intros id [Hid Hsome]%live_since_spec. by apply Hheld. }
  split; [|split; [|exact H]].
  - pose proof (live_since_NoDup base (snd s)) as Hnd.
    destruct (live_since base (snd s)) as [|a [|b l]]; cbn; [lia..|].
    exfalso.
    destruct (H a) as (i & f & Hi & Hf & _ & Ha); [set_solver|].
    destruct (H b) as (i' & f' & Hi' & Hf' & _ & Hb); [set_solver|].
    rewrite Hi in Hi'. injection Hi' as <-.
    rewrite Hf in Hf'. injection Hf' as <-.
    rewrite Ha in Hb. injection Hb as <-.
    apply NoDup_cons in Hnd as [Hnd _]. set_solver.
  - intros Hnone.
    destruct (live_since base (snd s)) as [|a l]; [done|].
    destruct (H a) as (i & _ & Hi & _); [set_solver|]. congruence.
Qed.

(** X8: the object-URL revisions never pile up object URLs. Start from a
    page with no instance whose store holds no URL from the counter on, and
    let any events happen in any order: renders with any props, [load] and
    [error] events of any image (also of images of earlier renders, also
    more than once), unmounts. Then at most one of the URLs handed out since
    the start is in the store, none is when the component is not mounted,
    and one that is there is the URL the pending cleanup function will
    release. *)
Theorem object_urls_never_pile_up (events : list Event) (w0 : World)
    (fresh :
       forall id, (next_object_url w0 <= id)%nat ->
         object_urls w0 !! id = None) :
  let base := next_object_url w0 in
  let after (component : Props -> Rendered) :=
    run_events component events (None, w0) in
  let at_most_one_held (s : option Instance * World) :=
    (length (live_since base (snd s)) <= 1)%nat
    /\ (fst s = None -> live_since base (snd s) = [])
    /\ forall id, id ∈ live_since base (snd s) ->
         exists i f, fst s = Some i /\ pending_cleanup i = Some f
                     /\ is_cleanup f = true /\ revokes f = Some id in
  at_most_one_held (after Rev1.RenderOnCanvas)
  /\ at_most_one_held (after Rev2.RenderOnCanvas).
Proof.
  cbv beta zeta.
  assert (H0 : held (next_object_url w0) (None, w0)).
  { unfold held. cbn [fst snd]. repeat split; [done..|].
    intros id Hid Hsome. rewrite (fresh id Hid) in Hsome. by destruct Hsome. }
  split; apply held_live_since, held_run_events;
    auto using Rev1_url_effect, Rev2_url_effect.
Qed.

End NoLeak.

Lemma object_urls_never_pile_up_witness :
  (forall id, (next_object_url (empty_world true) <= id)%nat ->
     object_urls (empty_world true) !! id = None)
  /\ (length
        (live_since 0
           (snd (run_events Rev2.RenderOnCanvas
                   [ev_render hi_props; ev_render euro_props; ev_load 0;
                    ev_error 1; ev_render hi_props_wider]
                   (None, empty_world true)))) <= 1)%nat.
Proof.
  split; [intros id _; reflexivity|].
  exact (proj1 (proj2
           (object_urls_never_pile_up
              [ev_render hi_props; ev_render euro_props; ev_load 0;
               ev_error 1; ev_render hi_props_wider]
              (empty_world true) (fun id _ => eq_refl)))).
Defined.

(** ** A render with other children *)

Section NewChildren.
Context `{P : Platform}.

Lemma update_new_children (component : Props -> Rendered) (c : VNode)
    (cleanup : Closure) (props' : Props) (w : World) :
  use_effect_deps (component props') = [dep_vnode (children props')] ->
  children props' <> c ->
  update component (instance_for c cleanup) props' w
  = (let* cleanup' :=
       use_effect (component props') in
     ret {| prev_deps := [dep_vnode (children props')];
            pending_cleanup := cleanup' |})%js
      (snd (call cleanup
              (snd (set_canvas (patch_canvas (returned (component props')))
                      w)))).
Proof.
  intros Hdeps Hne. rewrite (update_on_children _ _ _ _ Hdeps).
  rewrite bool_decide_eq_false_2 by (intros E; by apply Hne).
  unfold bind at 1 2. cbn [set_canvas snd].
  destruct (call_returns cleanup
              (snd (set_canvas (patch_canvas (returned (component props')))
                      w))) as (Hok & _).
  cbn [set_canvas snd] in Hok.
  destruct (call cleanup _) as [r w1]. cbn [fst] in Hok. by subst r.
Qed.

(** X9: after a first render, a render with other children first runs the
    cleanup function of the first render, with the width and height of the
    first render, and then the whole pipeline again for the new children,
    with the new width and height and a new image. The object-URL revision
    revokes the first URL before it creates the second; the function kept
    for the next cleanup is the one of the second run. *)
Theorem rerender_with_new_children_cleans_up_then_reruns
    (props props' : Props) (w : World)
    (changed : children props' <> children props) :
  let c := children props in
  let c' := children props' in
  let width' := default (lit 150) (width props') in
  let height' := default (lit 150) (height props') in
  let width := default (lit 150) (width props) in
  let height := default (lit 150) (height props) in
  let image' := S (length (images w)) in
  let u := ObjectURL (next_object_url w) in
  let u' := ObjectURL (S (next_object_url w)) in
  let type := js "image/svg+xml;charset=utf-8" in
  let svg2 := Rev2.svgMarkup (render c') width' height' in
  let svg4 :=
    Rev4.useSvgForeignObject (render c') (Some (width', height')) in
  let u4 := DataURL (js "data:image/svg+xml;base64,"
                     ++ base64_of_bytes (utob svg4)) in
  let old_cleared :=
    if has_context2d w then clear_calls width height else [] in
  let rerender (component : Props -> Rendered) (cleanup : Closure) :=
    update component (instance_for c cleanup) props'
      (mounted component props w) in
  let added (component : Props -> Rendered) (cleanup : Closure) :=
    new_calls (update component (instance_for c cleanup) props')
      (mounted component props w) in
  (fst (rerender Rev2.RenderOnCanvas
          (Rev2_cleanup (context_of w) width height u))
   = Ok (instance_for c' (Rev2_cleanup (context_of w) width' height' u'))
   /\ added Rev2.RenderOnCanvas (Rev2_cleanup (context_of w) width height u)
      = old_cleared
        ++ [call_revokeObjectURL u; call_render c'; call_new_Image image';
            call_new_Blob svg2 type; call_createObjectURL u';
            call_getContext; call_set_onload image';
            call_set_src image' u'])
  /\ (fst (rerender Rev4.RenderOnCanvas
             (Rev4_cleanup (context_of w) width height))
      = Ok (instance_for c' (Rev4_cleanup (context_of w) width' height'))
      /\ added Rev4.RenderOnCanvas (Rev4_cleanup (context_of w) width height)
         = old_cleared
           ++ [call_render c'; call_new_Image image';
               call_Base64_encode svg4; call_set_src image' u4;
               call_getContext; call_set_onload image']).
Proof.
  cbv beta zeta. unfold new_calls, mounted.
  destruct (deps_are_children props') as (_ & D2 & _ & D4).
  rewrite (update_new_children Rev2.RenderOnCanvas _ _ props' _ D2 changed).
  rewrite (update_new_children Rev4.RenderOnCanvas _ _ props' _ D4 changed).
  clear D2 D4. rewrite Rev2_mount_run, Rev4_mount_run. cbn [snd].
  destruct props as [c wd ht r], props' as [c' wd' ht' r'].
  cbn [children width height rest use_effect returned Rev2.RenderOnCanvas
       Rev4.RenderOnCanvas] in *.
  cbn [call]. rewrite Rev2_cleanup_any, Rev4_cleanup_any.
  rewrite !truthy_context_of.
  unfold bind.
  split.
  - erewrite Rev2_effect_run
      by (cbn [snd set_canvas drew loading with_canvas canvasRef fmap
               option_fmap option_map]; reflexivity).
    unfold ret, context_of. cbn [fst snd].
    split; [reflexivity|].
    cbn [calls snd set_canvas drew loading with_canvas images
         next_object_url].
    set (l := calls w ++ _).
    rewrite (length_app (images w)), Nat.add_1_r, <- !app_assoc.
    rewrite drop_app_length. reflexivity.
  - destruct (has_context2d w) eqn:Hctx.
    + erewrite Rev4_effect_run
        by (cbn [snd set_canvas drew loading with_canvas canvasRef fmap
                 option_fmap option_map]; reflexivity).
      unfold ret, context_of. cbn [fst snd].
      cbn [calls snd set_canvas drew loading with_canvas images
           next_object_url has_context2d].
      rewrite Hctx. split; [reflexivity|].
      set (l := calls w ++ _).
      rewrite (length_app (images w)), Nat.add_1_r, <- !app_assoc.
      rewrite drop_app_length. reflexivity.
    + erewrite Rev4_effect_run
        by (cbn [snd set_canvas drew loading with_canvas canvasRef fmap
                 option_fmap option_map]; reflexivity).
      unfold ret, context_of. cbn [fst snd].
      cbn [calls snd set_canvas drew loading with_canvas images
           next_object_url has_context2d].
      rewrite Hctx. split; [reflexivity|].
      set (l := calls w ++ _).
      rewrite (length_app (images w)), Nat.add_1_r.
      rewrite drop_app_length. reflexivity.
Qed.

End NewChildren.

Lemma rerender_with_new_children_cleans_up_then_reruns_witness :
  children euro_props <> children hi_props
  /\ new_calls
       (update Rev4.RenderOnCanvas
          (instance_for (children hi_props)
             (@Rev4_cleanup integer_platform
                (context_of (empty_world true)) 150%Z 150%Z))
          euro_props)
       (mounted Rev4.RenderOnCanvas hi_props (empty_world true))
     = clear_calls 150%Z 150%Z
       ++ [call_render (children euro_props); call_new_Image 1;
           call_Base64_encode
             (Rev4.useSvgForeignObject (render (children euro_props))
                (Some (150%Z, 150%Z)));
           call_set_src 1
             (DataURL
                (js "data:image/svg+xml;base64,"
                 ++ base64_of_bytes
                      (utob
                         (Rev4.useSvgForeignObject
                            (render (children euro_props))
                            (Some (150%Z, 150%Z))))));
           call_getContext; call_set_onload 1].
Proof.
  split; [discriminate|].
  exact (proj2 (proj2
           (rerender_with_new_children_cleans_up_then_reruns
              hi_props euro_props (empty_world true)
              ltac:(discriminate)))).
Defined.

(** ** The state machine of one effect run *)

Section Machine.
Context `{P : Platform}.







End Machine.

(** For a component whose effect depends on the children alone, only adds
    images, and logs calls that depend on the world only through the number
    of images and the URL counter. *)
Section AnyComponent.
Context `{P : Platform}.
Variable component : Props -> Rendered.
Hypothesis deps :
  forall props, use_effect_deps (component props)
                = [dep_vnode (children props)].
Hypothesis appends :
  forall props w, exists l,
    images (snd (use_effect (component props) w)) = images w ++ l.
Hypothesis logs :
  forall props wA wB,
    is_Some (canvasRef wA) -> is_Some (canvasRef wB) ->
    length (images wA) = length (images wB) ->
    next_object_url wA = next_object_url wB ->
    exists l,
      calls (snd (use_effect (component props) wA)) = calls wA ++ l
      /\ calls (snd (use_effect (component props) wB)) = calls wB ++ l.











End AnyComponent.

Section Revisions.
Context `{P : Platform}.







End Revisions.

Section LoadAttemptsAndEvents.
Context `{P : Platform}.


End LoadAttemptsAndEvents.

